(** * opusgenie-di: the resolution core, embedded and verified

    The development follows the layering of the package:

    - [Py]: the fragment of Python the code relies on (object identity,
      exceptions, zero-argument callables, truthiness of [x or y]);
    - [DI]: the three [dependency_injector.providers] the container wraps;
    - [ScopeManager]: the lifetime engine ([_core/scope_impl.py]);
    - [Container]: [_core/container_impl.py], translated method by method;
    - [Modules]: [ProviderConfig], [ProviderCollection],
      [ModuleContextImport], [ImportCollection];
    - [GlobalRegistry]: module registry, dependency graph, build order;
    - [Context]: the resolution engine with in-flight cycle detection;
    - [Macros]: the documentation macros ([docs/macros/__init__.py]).

    The theorems come after all the definitions. *)

From stdpp Require Import gmap strings list fin_maps pretty.

Local Open Scope string_scope.
Local Open Scope list_scope.

(* ===================================================================== *)
(** * Python values *)
(* ===================================================================== *)

Module Py.

(** An object is known by its identity (what [id(x)] and [is] observe).
    Identities are handed out in increasing order by the allocator. *)
Definition obj := nat.

(** The exception classes that travel through the core.
    [CircularDependencyError] derives from [ComponentResolutionError];
    [ComponentRegistrationError] does not. *)
Inductive exn :=
| ComponentResolutionError (message component_type details : string)
| CircularDependencyError (message : string) (dependency_chain : list string)
| ComponentRegistrationError (message : string)
    (component_type interface_type : option string) (details : string)
| ValidationError (message : string)
| ValueError (message : string)
| PyException (message : string).

(** [isinstance(e, ComponentResolutionError)] *)
Definition is_ComponentResolutionError (e : exn) : bool :=
  match e with
  | ComponentResolutionError _ _ _ | CircularDependencyError _ _ => true
  | _ => false
  end.

(** [isinstance(e, ComponentRegistrationError)] *)
Definition is_ComponentRegistrationError (e : exn) : bool :=
  match e with
  | ComponentRegistrationError _ _ _ _ => true
  | _ => false
  end.

(** [str(e)] *)
Definition str (e : exn) : string :=
  match e with
  | ComponentResolutionError m _ _ => m
  | CircularDependencyError m _ => m
  | ComponentRegistrationError m _ _ _ => m
  | ValidationError m => m
  | ValueError m => m
  | PyException m => m
  end.

Inductive outcome (A : Type) :=
| Returned (a : A)
| Raised (e : exn).
Arguments Returned {A} a.
Arguments Raised {A} e.

(** What a run leaves behind and a test can observe: which callables
    were invoked, which objects were disposed of (newest first). *)
Inductive event :=
| Called (fn : nat)
| Disposed (o : obj).

#[global] Instance event_eq_dec : EqDecision event.
Proof. solve_decision. Defined.

(** The part of the interpreter state outside the DI objects: the
    allocator and the trace. Every object that exists has an identity
    below [next_obj]. *)
Record world := World { next_obj : nat; trace : list event }.

(** A zero-argument callable (a factory function, a lambda, a class seen
    as its own constructor). Its body may look at the world (so it may
    count its own calls), allocates by moving the allocator, and returns
    an object or raises. It does not reach back into the DI objects: a
    factory that resolves its own dependencies from the container it is
    registered in (the container's lock is re-entrant for that) also
    changes the providers of those dependencies while it runs, and that
    part of its effect is not in [fn_body]. *)
Record callable := Callable {
  fn_id : nat;
  fn_body : world -> outcome obj * nat
}.

(** [f()] *)
Definition call (f : callable) (w : world) : outcome obj * world :=
  let '(r, n) := fn_body f w in
  (r, {| next_obj := n; trace := Called (fn_id f) :: trace w |}).

(** How many times [f] has been invoked so far. *)
Definition invocations (f : callable) (w : world) : nat :=
  length (filter (λ e, e = Called (fn_id f)) (trace w)).

(** A callable that creates instances: every call that returns, returns
    an object allocated during that very call. *)
Definition creates_instances (f : callable) : Prop :=
  ∀ w o n, fn_body f w = (Returned o, n) → next_obj w ≤ o < n.

(** [cls(...)]: allocate one object. *)
Definition constructor (id : nat) : callable :=
  {| fn_id := id; fn_body := λ w, (Returned (next_obj w), S (next_obj w)) |}.

(** [lambda: o] for an object [o] the lambda closes over. *)
Definition constant (id : nat) (o : obj) : callable :=
  {| fn_id := id; fn_body := λ w, (Returned o, next_obj w) |}.

(** A callable that raises. *)
Definition raising (id : nat) (e : exn) : callable :=
  {| fn_id := id; fn_body := λ w, (Raised e, next_obj w) |}.

(** A class: its [__name__] and what calling it without arguments does. *)
Record pytype := PyType { __name__ : string; __call__ : callable }.

(** [name or default] on [str | None]: [None] and the empty string are
    falsy. *)
Definition str_or (name : option string) (default : string) : string :=
  match name with
  | Some n => if decide (n = "") then default else n
  | None => default
  end.

(** The members of [ComponentScope]. *)
Inductive ComponentScope := SINGLETON | TRANSIENT | SCOPED | FACTORY | CONDITIONAL.

#[global] Instance ComponentScope_eq_dec : EqDecision ComponentScope.
Proof. solve_decision. Defined.

(** [str(scope)] *)
Definition scope_str (s : ComponentScope) : string :=
  match s with
  | SINGLETON => "ComponentScope.SINGLETON"
  | TRANSIENT => "ComponentScope.TRANSIENT"
  | SCOPED => "ComponentScope.SCOPED"
  | FACTORY => "ComponentScope.FACTORY"
  | CONDITIONAL => "ComponentScope.CONDITIONAL"
  end.

(** [scope.value] *)
Definition scope_value (s : ComponentScope) : string :=
  match s with
  | SINGLETON => "singleton"
  | TRANSIENT => "transient"
  | SCOPED => "scoped"
  | FACTORY => "factory"
  | CONDITIONAL => "conditional"
  end.

End Py.
Import Py.

(* ===================================================================== *)
(** * The providers of dependency-injector *)
(* ===================================================================== *)

Module DI.

(** [dependency_injector] is a third-party package; its providers are
    modelled by what they are documented to do for a plain callable:
    [providers.Singleton] keeps the first object its callable returns;
    [providers.Factory] calls its callable every time;
    [providers.Resource] keeps the object until it is shut down. *)
Inductive provider :=
| Singleton (provides : callable) (storage : option obj)
| Factory (provides : callable)
| Resource (provides : callable) (resource : option obj).

(** [provider()] *)
Definition provide (p : provider) (w : world) : outcome obj * provider * world :=
  match p with
  | Singleton f (Some o) => (Returned o, p, w)
  | Singleton f None =>
      match call f w with
      | (Returned o, w') => (Returned o, Singleton f (Some o), w')
      | (Raised e, w') => (Raised e, p, w')
      end
  | Factory f =>
      let '(r, w') := call f w in (r, p, w')
  | Resource f (Some o) => (Returned o, p, w)
  | Resource f None =>
      match call f w with
      | (Returned o, w') => (Returned o, Resource f (Some o), w')
      | (Raised e, w') => (Raised e, p, w')
      end
  end.

Definition reset_singleton (p : provider) : provider :=
  match p with
  | Singleton f _ => Singleton f None
  | _ => p
  end.

Definition shutdown_resource (p : provider) : provider :=
  match p with
  | Resource f _ => Resource f None
  | _ => p
  end.

Definition is_resource (p : provider) : bool :=
  match p with
  | Resource _ _ => true
  | _ => false
  end.

(** [provider.provides]: the callable the provider wraps. *)
Definition provides_of (p : provider) : callable :=
  match p with
  | Singleton f _ | Factory f | Resource f _ => f
  end.

(** The instance the provider holds, if it holds one. *)
Definition instance_of (p : provider) : option obj :=
  match p with
  | Singleton _ storage => storage
  | Factory _ => None
  | Resource _ resource => resource
  end.

(** [containers.DynamicContainer] is used as a dictionary of providers by
    name. *)
Definition set_provider (name : string) (p : provider) (c : gmap string provider)
  : gmap string provider := <[name := p]> c.

Definition reset_singletons (c : gmap string provider) : gmap string provider :=
  reset_singleton <$> c.

Definition shutdown_resources (c : gmap string provider) : gmap string provider :=
  shutdown_resource <$> c.

(** [providers.clear()] *)
Definition delete_all (c : gmap string provider) : gmap string provider := ∅.

End DI.

(* ===================================================================== *)
(** * ScopeManager *)
(* ===================================================================== *)

Module ScopeManager.

(** One open scope frame: the instances cached in it by type key and, for
    clean-up, the instances created in it, newest first. *)
Record frame := Frame {
  cache : gmap string obj;
  created : list obj
}.

Definition empty_frame : frame := {| cache := ∅; created := [] |}.

(** Modelled from the spec: [_core/scope_impl.py] is not under src; the
    state is the one of the spec's data model: the singleton table, the
    stack of scope frames (innermost last) and the instances tracked for
    disposal (newest first). Type keys are type names. *)
Record t := Make {
  _singletons : gmap string obj;
  _scoped_instances : list frame;
  _disposable_instances : list obj
}.

Definition new : t :=
  {| _singletons := ∅; _scoped_instances := []; _disposable_instances := [] |}.

(** Modelled from the spec: [has_active_scope()] is true iff the frame
    stack is non-empty. *)
Definition has_active_scope (self : t) : bool :=
  match _scoped_instances self with [] => false | _ => true end.

Definition store_singleton (key : string) (o : obj) (self : t) : t :=
  {| _singletons := <[key := o]> (_singletons self);
     _scoped_instances := _scoped_instances self;
     _disposable_instances := o :: _disposable_instances self |}.

Definition store_in_frame (key : string) (o : obj) (fr : frame) : frame :=
  {| cache := <[key := o]> (cache fr); created := o :: created fr |}.

(** Cache [o] under [key] in the innermost open frame. *)
Definition store_scoped (key : string) (o : obj) (self : t) : t :=
  {| _singletons := _singletons self;
     _scoped_instances :=
       alter (store_in_frame key o) (pred (length (_scoped_instances self)))
             (_scoped_instances self);
     _disposable_instances := _disposable_instances self |}.

Section Lifetimes.
(** The manager lives inside a larger state [S] (alone with the world,
    or inside a Context); a factory is whatever the caller passes: a
    computation on that state. *)
Context {S : Type} (sm_of : S → t) (with_sm : t → S → S).

(** Modelled from the spec: [create_or_get_instance(key, scope, factory)]
    (spec 4.2). Singleton: a key in the table is returned without
    invoking the factory, otherwise the factory is invoked once and its
    result stored. Transient: always invokes the factory, never caches.
    Scoped: exactly like transient when no frame is open, otherwise like
    singleton within the innermost open frame. The spec gives the
    manager no policy for the remaining scope members; they are not
    cached. *)
Definition create_or_get_instance (key : string) (scope : ComponentScope)
    (factory : S → outcome obj * S) (s : S) : outcome obj * S :=
  match scope with
  | SINGLETON =>
      match _singletons (sm_of s) !! key with
      | Some o => (Returned o, s)
      | None =>
          match factory s with
          | (Returned o, s') =>
              (Returned o, with_sm (store_singleton key o (sm_of s')) s')
          | (Raised e, s') => (Raised e, s')
          end
      end
  | SCOPED =>
      match last (_scoped_instances (sm_of s)) with
      | None => factory s
      | Some fr =>
          match cache fr !! key with
          | Some o => (Returned o, s)
          | None =>
              match factory s with
              | (Returned o, s') =>
                  (Returned o, with_sm (store_scoped key o (sm_of s')) s')
              | (Raised e, s') => (Raised e, s')
              end
          end
      end
  | TRANSIENT | FACTORY | CONDITIONAL => factory s
  end.
End Lifetimes.

(** The manager used on its own: the state is the manager and the world,
    the factory a plain callable. *)
Definition run (f : callable) (s : t * world) : outcome obj * (t * world) :=
  let '(r, w) := call f s.2 in (r, (s.1, w)).

Definition get_or_create (key : string) (scope : ComponentScope) (f : callable)
    (s : t * world) : outcome obj * (t * world) :=
  create_or_get_instance fst (λ sm s, (sm, s.2)) key scope (run f) s.

(** Dispose of the instances in the order of the list. *)
Definition dispose_all (os : list obj) (w : world) : world :=
  {| next_obj := next_obj w; trace := reverse (Disposed <$> os) ++ trace w |}.

(** Modelled from the spec: [create_scope()] pushes a new, empty frame on
    entry; on exit it pops the frame, discards its cache and disposes of
    the instances created in it in reverse creation order. *)
Definition enter_scope (self : t) : t :=
  {| _singletons := _singletons self;
     _scoped_instances := _scoped_instances self ++ [empty_frame];
     _disposable_instances := _disposable_instances self |}.

Definition exit_scope (s : t * world) : t * world :=
  match last (_scoped_instances s.1) with
  | None => s
  | Some fr =>
      ({| _singletons := _singletons s.1;
          _scoped_instances := removelast (_scoped_instances s.1);
          _disposable_instances := _disposable_instances s.1 |},
       dispose_all (created fr) s.2)
  end.

(** [with self.create_scope(): body]: the frame is popped on every exit
    path. *)
Definition create_scope {A} (body : t * world → outcome A * (t * world))
    (s : t * world) : outcome A * (t * world) :=
  let '(r, s') := body (enter_scope s.1, s.2) in (r, exit_scope s').

(** Modelled from the spec: [clear_all()], called by the container, drops
    every table without disposing; the manager is as newly constructed. *)
Definition clear_all (self : t) : t := new.

(** Modelled from the spec: [dispose()] disposes of every tracked
    singleton instance and clears all state. *)
Definition dispose (s : t * world) : t * world :=
  (new, dispose_all (_disposable_instances s.1) s.2).

(** Modelled from the spec: [get_instance_count(scope=None)]; the
    singleton count only counts the singleton table. *)
Definition get_instance_count (scope : option ComponentScope) (self : t) : nat :=
  let scoped := sum_list ((λ fr, size (cache fr)) <$> _scoped_instances self) in
  match scope with
  | None => size (_singletons self) + scoped
  | Some SINGLETON => size (_singletons self)
  | Some SCOPED => scoped
  | Some _ => 0
  end.

End ScopeManager.

(* ===================================================================== *)
(** * Provider objects *)
(* ===================================================================== *)

Module ComponentProvider.

(** A provider object as [Container.register_provider] uses it: reading the
    attribute [provider.provide] gives the bound method or raises
    ([AttributeError]); [get_scope] is absent ([hasattr] is false) or
    calling it returns a scope or raises. *)
Record t := Make {
  provide : outcome callable;
  get_scope : option (outcome ComponentScope)
}.

End ComponentProvider.

(* ===================================================================== *)
(** * Container ([_core/container_impl.py]) *)
(* ===================================================================== *)

Module Container.
Import DI.

(** [ComponentMetadata] as the container fills it in. *)
Record ComponentMetadata := Metadata {
  component_type : string;
  component_name : string;
  scope : ComponentScope;
  tags : list (string * string);
  dependencies : list string;
  context_name : string;
  provider_name : string
}.

(** The helpers of [_utils] the container calls. They are not under src
    and are taken as parameters: the validation either passes ([None]) or
    raises, the introspection returns the constructor's parameters. The
    logging helpers have no effect on the state. *)
Record Utils := {
  validate_component_registration : pytype → pytype → string → option exn;
  get_constructor_dependencies : pytype → list (string * string)
}.

(** The attributes set by [__init__]. *)
Record t := Make {
  _name : string;
  _scope_manager : ScopeManager.t;
  _container : gmap string provider;
  _component_metadata : gmap string ComponentMetadata;
  _registration_count : nat
}.

(** [Container(name)] *)
Definition __init__ (name : string) : t :=
  {| _name := name;
     _scope_manager := ScopeManager.new;
     _container := ∅;
     _component_metadata := ∅;
     _registration_count := 0 |}.

(** The provider chosen for a scope ([register], the [if] chain on
    [scope]); [None] is the final [else], which raises. *)
Definition provider_for (scope : ComponentScope) (factory : option callable)
    (impl_class : pytype) : option provider :=
  match scope with
  | SINGLETON =>
      Some (Singleton (default (__call__ impl_class) factory) None)
  | TRANSIENT =>
      Some (Factory (default (__call__ impl_class) factory))
  | SCOPED =>
      Some (Resource (default (__call__ impl_class) factory) None)
  | FACTORY =>
      Some (Factory (default (__call__ impl_class) factory))
  | CONDITIONAL => None
  end.

Section WithUtils.
Context (U : Utils).

(** The [except Exception] clause of [register]. *)
Definition registration_failure (interface impl : pytype) (e : exn) : exn :=
  if is_ComponentRegistrationError e then e
  else ComponentRegistrationError
         ("Failed to register component " +:+ __name__ interface)
         (Some (__name__ impl)) (Some (__name__ interface)) (str e).

(** [register(interface, implementation, *, scope, name, tags, factory)] *)
Definition register (self : t) (interface : pytype)
    (implementation : option pytype) (scope : ComponentScope)
    (name : option string) (tags : option (list (string * string)))
    (factory : option callable) : outcome () * t :=
  let impl_class := default interface implementation in
  let provider_name := str_or name (__name__ interface) in
  match validate_component_registration U interface impl_class provider_name with
  | Some e => (Raised (registration_failure interface impl_class e), self)
  | None =>
      match provider_for scope factory impl_class with
      | None =>
          (Raised (registration_failure interface impl_class
                     (ComponentRegistrationError
                        ("Unsupported scope: " +:+ scope_str scope)
                        (Some (__name__ impl_class)) (Some (__name__ interface))
                        ("Scope " +:+ scope_value scope +:+ " is not supported"))),
           self)
      | Some provider =>
          let dependencies := get_constructor_dependencies U impl_class in
          let metadata :=
            {| component_type := __name__ impl_class;
               component_name := provider_name;
               scope := scope;
               tags := default [] tags;
               dependencies := dependencies.*1;
               context_name := _name self;
               provider_name := provider_name |} in
          (Returned (),
           {| _name := _name self;
              _scope_manager := _scope_manager self;
              _container := set_provider provider_name provider (_container self);
              _component_metadata :=
                <[provider_name := metadata]> (_component_metadata self);
              _registration_count := S (_registration_count self) |})
      end
  end.
End WithUtils.

Definition with_container (c : gmap string provider) (self : t) : t :=
  {| _name := _name self;
     _scope_manager := _scope_manager self;
     _container := c;
     _component_metadata := _component_metadata self;
     _registration_count := _registration_count self |}.

(** [resolve(interface, name=None)] *)
Definition resolve (self : t) (interface : pytype) (name : option string)
    (w : world) : outcome obj * t * world :=
  let provider_name := str_or name (__name__ interface) in
  match _container self !! provider_name with
  | None =>
      (Raised (ComponentResolutionError
                 ("No registration found for interface '" +:+ __name__ interface +:+ "'")
                 (__name__ interface)
                 ("Component '" +:+ provider_name +:+ "' not registered in container '"
                    +:+ _name self +:+ "'")),
       self, w)
  | Some p =>
      let '(r, p', w') := provide p w in
      let self' := with_container (<[provider_name := p']> (_container self)) self in
      match r with
      | Returned instance => (Returned instance, self', w')
      | Raised e =>
          if is_ComponentResolutionError e then (Raised e, self', w')
          else (Raised (ComponentResolutionError
                          ("Failed to resolve component " +:+ __name__ interface)
                          (__name__ interface) (str e)),
                self', w')
      end
  end.

(** A coroutine object: nothing runs until it is awaited, and then it
    runs on the container as it is at that moment. *)
Definition coroutine (A : Type) := t → world → outcome A * t * world.

Definition await {A} (co : coroutine A) (self : t) (w : world)
  : outcome A * t * world := co self w.

(** [async def resolve_async(interface, name=None)] *)
Definition resolve_async (interface : pytype) (name : option string)
  : coroutine obj :=
  λ self w, resolve self interface name w.

(** [is_registered(interface, name=None)] *)
Definition is_registered (self : t) (interface : pytype) (name : option string) : bool :=
  let provider_name := str_or name (__name__ interface) in
  bool_decide (is_Some (_container self !! provider_name)).

(** [get_metadata(interface, name=None)] *)
Definition get_metadata (self : t) (interface : pytype) (name : option string)
  : outcome ComponentMetadata :=
  let provider_name := str_or name (__name__ interface) in
  match _component_metadata self !! provider_name with
  | None =>
      Raised (ComponentResolutionError
                ("No metadata found for component '" +:+ __name__ interface +:+ "'")
                (__name__ interface)
                ("Component '" +:+ provider_name +:+ "' not registered"))
  | Some m => Returned m
  end.

(** [unregister(interface, name=None)] *)
Definition unregister (self : t) (interface : pytype) (name : option string)
  : bool * t :=
  let provider_name := str_or name (__name__ interface) in
  match _container self !! provider_name with
  | None => (false, self)
  | Some _ =>
      (true,
       {| _name := _name self;
          _scope_manager := _scope_manager self;
          _container := delete provider_name (_container self);
          _component_metadata := delete provider_name (_component_metadata self);
          _registration_count := _registration_count self |})
  end.

(** [clear()]: the singletons are reset and the dictionary of providers is
    emptied, then the metadata, the count and the scope manager. *)
Definition clear (self : t) : t :=
  {| _name := _name self;
     _scope_manager := ScopeManager.clear_all (_scope_manager self);
     _container := ∅;
     _component_metadata := ∅;
     _registration_count := 0 |}.

(** [get_registration_count()] *)
Definition get_registration_count (self : t) : nat := size (_container self).

(** [shutdown()]: the resources of the wrapped container are shut down,
    the scope manager and the metadata are cleared; the providers stay. *)
Definition shutdown (self : t) : t :=
  {| _name := _name self;
     _scope_manager := ScopeManager.clear_all (_scope_manager self);
     _container := shutdown_resources (_container self);
     _component_metadata := ∅;
     _registration_count := 0 |}.

(** The [except Exception] clause of [resolve]: a
    [ComponentResolutionError] passes, anything else is wrapped. *)
Definition resolution_failure (interface : pytype) (e : exn) : exn :=
  if is_ComponentResolutionError e then e
  else ComponentResolutionError
         ("Failed to resolve component " +:+ __name__ interface)
         (__name__ interface) (str e).

(** What [resolve] makes of the outcome of calling the provider. *)
Definition resolved (interface : pytype) (r : outcome obj) : outcome obj :=
  match r with
  | Returned instance => Returned instance
  | Raised e => Raised (resolution_failure interface e)
  end.

(** The [except Exception] clause of [register_provider]: every exception
    is wrapped, whatever its class. *)
Definition provider_registration_failure (interface : pytype) (e : exn) : exn :=
  ComponentRegistrationError
    ("Failed to register provider for " +:+ __name__ interface)
    (Some (__name__ interface)) (Some (__name__ interface)) (str e).

(** [register_provider(interface, provider, *, name=None, tags=None)]: the
    provider's [provide] is wrapped in a [providers.Factory] and installed
    before the metadata is built, so an exception raised while the scope is
    asked for leaves the new provider in place. *)
Definition register_provider (self : t) (interface : pytype)
    (provider : ComponentProvider.t) (name : option string)
    (tags : option (list (string * string))) : outcome () * t :=
  let provider_name := str_or name (__name__ interface) in
  match ComponentProvider.provide provider with
  | Raised e => (Raised (provider_registration_failure interface e), self)
  | Returned bound_method =>
      let installed :=
        with_container
          (set_provider provider_name (Factory bound_method) (_container self))
          self in
      match default (Returned SINGLETON) (ComponentProvider.get_scope provider) with
      | Raised e =>
          (Raised (provider_registration_failure interface e), installed)
      | Returned scope =>
          let metadata :=
            {| component_type := __name__ interface;
               component_name := provider_name;
               scope := scope;
               tags := default [] tags;
               dependencies := [];
               context_name := _name self;
               provider_name := provider_name |} in
          (Returned (),
           {| _name := _name self;
              _scope_manager := _scope_manager self;
              _container := _container installed;
              _component_metadata :=
                <[provider_name := metadata]> (_component_metadata self);
              _registration_count := S (_registration_count self) |})
      end
  end.

(** [get_registered_types()]: the keys of the dictionary of providers (the
    provider names, as the code's comment says). The finite map does not
    keep the insertion order of the dictionary; the list is given in the
    order of the map and only facts that do not depend on the order are
    stated of it. *)
Definition get_registered_types (self : t) : list string :=
  elements (dom (_container self)).

(** Metadata is only ever filed for a registered provider, under its
    provider name and with the name of this container. *)
Definition metadata_consistent (self : t) : Prop :=
  ∀ key m, _component_metadata self !! key = Some m →
    is_Some (_container self !! key)
    ∧ provider_name m = key ∧ component_name m = key
    ∧ context_name m = _name self.

End Container.

(* ===================================================================== *)
(** * Provider and import declarations ([_modules]) *)
(* ===================================================================== *)

Module ProviderConfig.

(** A condition is a boolean or a zero-argument callable that returns a
    boolean or raises. *)
Inductive condition :=
| CBool (b : bool)
| CCallable (f : () → outcome bool).

(** Modelled from the spec: [_modules/provider_config.py] is not under
    src; the fields are those of the spec's data model. *)
Record t := Make {
  interface : pytype;
  implementation : option pytype;
  scope : ComponentScope;
  name : option string;
  factory : option callable;
  tags : list (string * string);
  conditional : option condition
}.

(** Modelled from the spec: [get_implementation()] returns
    [implementation] if set else [interface]. *)
Definition get_implementation (self : t) : pytype :=
  default (interface self) (implementation self).

(** Modelled from the spec: [get_provider_name()] returns [name] if set
    else the interface's type name. *)
Definition get_provider_name (self : t) : string :=
  default (__name__ (interface self)) (name self).

(** Modelled from the spec: [evaluate_condition()]: no condition is true;
    a boolean is itself; a callable gives its result, and any error it
    raises gives false. *)
Definition evaluate_condition (self : t) : bool :=
  match conditional self with
  | None => true
  | Some (CBool b) => b
  | Some (CCallable f) =>
      match f () with
      | Returned b => b
      | Raised _ => false
      end
  end.

End ProviderConfig.

Module ProviderCollection.

(** Modelled from the spec: an ordered sequence of [ProviderConfig]. *)
Record t := Make { providers : list ProviderConfig.t }.

Definition empty : t := {| providers := [] |}.

Definition get_provider_by_name (self : t) (name : string)
  : option ProviderConfig.t :=
  find (λ p, bool_decide (ProviderConfig.get_provider_name p = name))
       (providers self).

(** Modelled from the spec: [add_provider]: keyed by provider name, the
    first registration wins and a later one with the same name is
    silently ignored. *)
Definition add_provider (self : t) (config : ProviderConfig.t) : t :=
  match get_provider_by_name self (ProviderConfig.get_provider_name config) with
  | Some _ => self
  | None => {| providers := providers self ++ [config] |}
  end.

Definition get_active_providers (self : t) : list ProviderConfig.t :=
  filter (λ p, ProviderConfig.evaluate_condition p = true) (providers self).

End ProviderCollection.

Module ModuleContextImport.

(** Modelled from the spec: [_modules/import_declaration.py] is not under
    src; the fields are those of the spec's data model. *)
Record t := Make {
  component_type : pytype;
  from_context : string;
  name : option string;
  alias : option string;
  required : bool
}.

(** Modelled from the spec: [get_provider_name()] is [name] or the
    component type name. *)
Definition get_provider_name (self : t) : string :=
  default (__name__ (component_type self)) (name self).

(** Modelled from the spec: [get_import_key()] is
    ["{from_context}:{provider_name}"]. *)
Definition get_import_key (self : t) : string :=
  from_context self +:+ ":" +:+ get_provider_name self.

(** Modelled from the spec: [get_local_name()] is [alias] or the provider
    name. *)
Definition get_local_name (self : t) : string :=
  default (get_provider_name self) (alias self).

End ModuleContextImport.

Module ImportCollection.

(** Modelled from the spec: an ordered sequence of [ModuleContextImport]. *)
Record t := Make { imports : list ModuleContextImport.t }.

Definition empty : t := {| imports := [] |}.

Definition get_import_by_key (self : t) (key : string)
  : option ModuleContextImport.t :=
  find (λ i, bool_decide (ModuleContextImport.get_import_key i = key))
       (imports self).

(** Modelled from the spec: [add_import]: deduplicated by import key, the
    first wins. *)
Definition add_import (self : t) (import_decl : ModuleContextImport.t) : t :=
  match get_import_by_key self (ModuleContextImport.get_import_key import_decl) with
  | Some _ => self
  | None => {| imports := imports self ++ [import_decl] |}
  end.

Definition get_source_contexts (self : t) : list string :=
  remove_dups (ModuleContextImport.from_context <$> imports self).

End ImportCollection.

(* ===================================================================== *)
(** * GlobalRegistry ([_registry/global_registry.py]) *)
(* ===================================================================== *)

Module GlobalRegistry.

(** Modelled from the spec: [_registry/module_metadata.py] is not under
    src; the fields are those of the spec's data model. *)
Record ModuleMetadata := Metadata {
  name : string;
  module_class : pytype;
  providers : ProviderCollection.t;
  imports : ImportCollection.t;
  exports : list pytype;
  description : option string;
  version : string;
  tags : list (string * string)
}.

(** A dictionary that remembers insertion order: assigning to a key that
    is present keeps its position. *)
Fixpoint dict_set {V} (k : string) (v : V) (d : list (string * V))
  : list (string * V) :=
  match d with
  | [] => [(k, v)]
  | (k', v') :: d' =>
      if decide (k' = k) then (k, v) :: d' else (k', v') :: dict_set k v d'
  end.

Fixpoint dict_get {V} (k : string) (d : list (string * V)) : option V :=
  match d with
  | [] => None
  | (k', v') :: d' => if decide (k' = k) then Some v' else dict_get k d'
  end.

Definition dict_del {V} (k : string) (d : list (string * V))
  : list (string * V) :=
  filter (λ kv, kv.1 ≠ k) d.

(** Modelled from the spec: [_registry/global_registry.py] is not under
    src; the state is the one of the spec's data model. Classes are keyed
    by their names. *)
Record t := Make {
  _modules : list (string * ModuleMetadata);
  _modules_by_class : gmap string string;
  _dependency_graph : gmap string (gset string)
}.

Definition new : t :=
  {| _modules := []; _modules_by_class := ∅; _dependency_graph := ∅ |}.

(** The edge set of a module: the source of every import whose source
    differs from the module itself. *)
Definition edges_of (metadata : ModuleMetadata) : gset string :=
  list_to_set
    (filter (λ s, s ≠ name metadata)
            (ModuleContextImport.from_context
               <$> ImportCollection.imports (imports metadata))).

(** Modelled from the spec: [register_module(metadata)] inserts or
    overwrites by name; when overwriting, the old class mapping is removed
    and the new one installed; the edge set of this module is recomputed
    from its imports. *)
Definition register_module (self : t) (metadata : ModuleMetadata) : t :=
  let by_class :=
    match dict_get (name metadata) (_modules self) with
    | Some old => delete (__name__ (module_class old)) (_modules_by_class self)
    | None => _modules_by_class self
    end in
  {| _modules := dict_set (name metadata) metadata (_modules self);
     _modules_by_class :=
       <[__name__ (module_class metadata) := name metadata]> by_class;
     _dependency_graph :=
       <[name metadata := edges_of metadata]> (_dependency_graph self) |}.

(** Modelled from the spec: [unregister_module(name)] removes the module
    and purges it from every other module's edge set; false if absent. *)
Definition unregister_module (self : t) (module_name : string) : bool * t :=
  match dict_get module_name (_modules self) with
  | None => (false, self)
  | Some old =>
      (true,
       {| _modules := dict_del module_name (_modules self);
          _modules_by_class :=
            delete (__name__ (module_class old)) (_modules_by_class self);
          _dependency_graph :=
            (λ deps, deps ∖ {[module_name]})
              <$> delete module_name (_dependency_graph self) |})
  end.

Definition get_module (self : t) (module_name : string) : option ModuleMetadata :=
  dict_get module_name (_modules self).

Definition get_module_names (self : t) : list string := (_modules self).*1.

Definition is_module_registered (self : t) (module_name : string) : bool :=
  bool_decide (module_name ∈ get_module_names self).

Definition get_dependency_graph (self : t) : gmap string (gset string) :=
  _dependency_graph self.

(** [get_module_dependencies(name)] *)
Definition get_module_dependencies (self : t) (module_name : string) : list string :=
  elements (default ∅ (_dependency_graph self !! module_name)).

(** A dependency holds a module back while it is a registered module that
    has not been placed yet; an import from a context that is not
    registered is the builder's concern, not the order's. *)
Definition blocking (self : t) (placed : list string) (d : string) : bool :=
  is_module_registered self d && negb (bool_decide (d ∈ placed)).

Definition ready (self : t) (placed : list string) (n : string) : bool :=
  forallb (λ d, negb (blocking self placed d)) (get_module_dependencies self n).

(** Kahn's algorithm by full passes over the modules in registration
    order: a pass places every pending module all of whose dependencies
    were placed before the pass. It stops when a pass places nothing and
    returns what is placed and what is stuck. *)
Fixpoint sort_passes (self : t) (passes : nat) (pending placed : list string)
  : list string * list string :=
  match passes with
  | 0 => (placed, pending)
  | S passes' =>
      match filter (λ n, ready self placed n = true) pending with
      | [] => (placed, pending)
      | now =>
          sort_passes self passes'
            (filter (λ n, ready self placed n ≠ true) pending)
            (placed ++ now)
      end
  end.

(** The part of [l] that starts at the first [x]. *)
Fixpoint from_first (x : string) (l : list string) : list string :=
  match l with
  | [] => []
  | y :: l' => if decide (y = x) then l else from_first x l'
  end.

(** From a stuck module, follow the first blocking dependency until a
    module comes back; [path] holds the modules walked so far, oldest
    first. The result names the cycle, closed: [a; b; ...; a]. *)
Fixpoint walk (self : t) (placed : list string) (steps : nat)
    (path : list string) (cur : string) : list string :=
  if bool_decide (cur ∈ path)
  then from_first cur path ++ [cur]
  else
    match steps with
    | 0 => []
    | S steps' =>
        match find (blocking self placed)
                   (get_module_dependencies self cur) with
        | None => []
        | Some d => walk self placed steps' (path ++ [cur]) d
        end
    end.

Definition find_cycle (self : t) (placed stuck : list string) : list string :=
  match stuck with
  | [] => []
  | n :: _ => walk self placed (length stuck) [] n
  end.

Fixpoint join (sep : string) (l : list string) : string :=
  match l with
  | [] => ""
  | [x] => x
  | x :: l' => x +:+ sep +:+ join sep l'
  end.

Definition circular_dependencies (cycle : list string) : exn :=
  ValueError ("Circular dependencies detected: " +:+ join " -> " cycle).

(** Modelled from the spec: [get_build_order()] is a deterministic
    topological sort over the dependency graph (Kahn's algorithm); it
    raises when a node cannot be resolved after a full pass, and the error
    identifies the cycle; a module of the registry absent from the
    computed order is appended at the end in registration order. The
    error is the [ValueError] the tests expect. *)
Definition get_build_order (self : t) : outcome (list string) :=
  let names := get_module_names self in
  match sort_passes self (length names) names [] with
  | (placed, []) =>
      Returned (placed ++ filter (λ n, n ∉ placed) names)
  | (placed, stuck) =>
      Raised (circular_dependencies (find_cycle self placed stuck))
  end.

(** [l.index(x)] *)
Fixpoint index {A} `{EqDecision A} (x : A) (l : list A) : option nat :=
  match l with
  | [] => None
  | y :: l' => if decide (y = x) then Some 0 else S <$> index x l'
  end.

(** The import-derived dependency relation: [a] is a registered module
    with an import whose source is another context, [b]. *)
Definition imports_from (self : t) (a b : string) : Prop :=
  ∃ m i, (a, m) ∈ _modules self
         ∧ i ∈ ImportCollection.imports (imports m)
         ∧ ModuleContextImport.from_context i = b
         ∧ b ≠ a.

(** [l] walks along the relation. *)
Fixpoint chain (R : string → string → Prop) (l : list string) : Prop :=
  match l with
  | a :: (b :: _) as l' => R a b ∧ chain R l'
  | _ => True
  end.

(** A closed walk [a; b; ...; a] along the imports. *)
Definition is_cycle (self : t) (l : list string) : Prop :=
  (2 ≤ length l)%nat ∧ chain (imports_from self) l ∧ head l = last l.

(** [d] is in the stored edge set of [n]. *)
Definition depends_on (self : t) (n d : string) : Prop :=
  d ∈ get_module_dependencies self n.

(** Every module of [order] stands after each registered module it depends
    on. *)
Definition dependencies_first (self : t) (order : list string) : Prop :=
  ∀ i n, order !! i = Some n →
    ∀ d, depends_on self n d → d ∈ get_module_names self →
         ∃ j, (j < i)%nat ∧ order !! j = Some d.

(** The invariant of the passes: what is placed and what is pending make up
    the registered modules, and what is placed is in dependency order. *)
Definition pass_invariant (self : t) (pending placed : list string) : Prop :=
  placed ++ pending ≡ₚ get_module_names self ∧ dependencies_first self placed.

(** What registration keeps true: module names are unique, every module is
    filed under its own name and its edge set is the one its imports
    give. *)
Definition well_formed (r : t) : Prop :=
  NoDup (get_module_names r)
  ∧ ∀ n m, (n, m) ∈ _modules r →
           name m = n ∧ _dependency_graph r !! n = Some (edges_of m).

(** The registry after registering the modules of [ms], in order. *)
Definition registry_of (ms : list ModuleMetadata) : t :=
  foldl register_module new ms.

(** One call that changes the registry. *)
Inductive change :=
| DoRegisterModule (metadata : ModuleMetadata)
| DoUnregisterModule (module_name : string).

Definition apply_change (self : t) (c : change) : t :=
  match c with
  | DoRegisterModule metadata => register_module self metadata
  | DoUnregisterModule module_name => (unregister_module self module_name).2
  end.

(** The registry after the calls of [changes], in order, on a new
    registry. *)
Definition registry_after (changes : list change) : t :=
  foldl apply_change new changes.

End GlobalRegistry.

(* ===================================================================== *)
(** * Context ([_core/context_impl.py]) *)
(* ===================================================================== *)

Module Context.

(** What a custom factory does when the context invokes it: it may call
    back [context.resolve(interface, name)] any number of times (an
    exception raised there passes through the factory) and ends in a
    plain callable that builds the instance. *)
Inductive factory :=
| Plain (f : callable)
| Resolving (interface : pytype) (name : option string) (next : factory).

(** One provider entry: the registered type, its scope, the optional
    custom factory. *)
Record provider := Provider {
  p_type : pytype;
  p_scope : ComponentScope;
  p_factory : option factory
}.

(** The excluded collaborators the context consumes (spec 6): the
    registration check, which passes ([None]) or raises, and the
    constructor introspection, which gives for each annotated parameter
    its type and whether it is optional. *)
Record Utils := {
  validate_component_registration : pytype → pytype → string → option exn;
  get_constructor_dependencies : pytype → list (string * (pytype * bool))
}.

(** Modelled from the spec: [_core/context_impl.py] is not under src; the
    state is the one of the spec's data model: the name, the provider
    registry by [name or type_name], the scope manager the context owns,
    the auto-wiring flag. *)
Record t := Make {
  name : string;
  _providers : gmap string provider;
  _scope_manager : ScopeManager.t;
  _auto_wire : bool
}.

Definition state : Type := t * world.

(** [Context(name, auto_wire=False)] *)
Definition __init__ (name : string) : t :=
  {| name := name; _providers := ∅;
     _scope_manager := ScopeManager.new; _auto_wire := false |}.

Definition sm_of (s : state) : ScopeManager.t := _scope_manager s.1.

Definition with_sm (sm : ScopeManager.t) (s : state) : state :=
  ({| name := name s.1; _providers := _providers s.1;
      _scope_manager := sm; _auto_wire := _auto_wire s.1 |}, s.2).

(** Forget what the scope manager holds for [key]. *)
Definition evict (key : string) (sm : ScopeManager.t) : ScopeManager.t :=
  {| ScopeManager._singletons := delete key (ScopeManager._singletons sm);
     ScopeManager._scoped_instances :=
       (λ fr, {| ScopeManager.cache := delete key (ScopeManager.cache fr);
                 ScopeManager.created := ScopeManager.created fr |})
         <$> ScopeManager._scoped_instances sm;
     ScopeManager._disposable_instances :=
       ScopeManager._disposable_instances sm |}.

(** The scope manager holds nothing for [key] that a request under [scope]
    would find. *)
Definition uncached (key : string) (scope : ComponentScope) (sm : ScopeManager.t) : Prop :=
  match scope with
  | SINGLETON => ScopeManager._singletons sm !! key = None
  | SCOPED =>
      ∀ fr, last (ScopeManager._scoped_instances sm) = Some fr →
            ScopeManager.cache fr !! key = None
  | _ => True
  end.

(** Modelled from the spec: [register_component(type, *, name, scope,
    factory, allow_override)] installs a provider entry keyed by
    [name or type_name]; a validation failure is propagated; registering
    a key again is permitted with or without [allow_override] and the
    last registration wins, also over an instance the earlier one left
    behind ([test_component_replacement]). *)
Definition register_component (U : Utils) (self : t) (type : pytype)
    (name' : option string) (scope : ComponentScope)
    (factory : option factory) (allow_override : bool) : outcome () * t :=
  let key := str_or name' (__name__ type) in
  match validate_component_registration U type type key with
  | Some e => (Raised e, self)
  | None =>
      (Returned (),
       {| name := name self;
          _providers :=
            <[key := {| p_type := type; p_scope := scope; p_factory := factory |}]>
              (_providers self);
          _scope_manager := evict key (_scope_manager self);
          _auto_wire := _auto_wire self |})
  end.

(** Modelled from the spec: [is_registered(type, name=None)]. *)
Definition is_registered (self : t) (type : pytype) (name' : option string) : bool :=
  bool_decide (is_Some (_providers self !! str_or name' (__name__ type))).

(** Modelled from the spec: [enable_auto_wiring()] is an idempotent
    toggle. *)
Definition enable_auto_wiring (self : t) : t :=
  {| name := name self; _providers := _providers self;
     _scope_manager := _scope_manager self; _auto_wire := true |}.

Definition circular_dependency (chain : list string) : exn :=
  CircularDependencyError
    ("Circular dependency detected: " +:+ GlobalRegistry.join " -> " chain)
    chain.

Definition not_registered (self : t) (type : pytype) (key : string) : exn :=
  ComponentResolutionError
    ("No registration found for interface '" +:+ __name__ type +:+ "'")
    (__name__ type)
    ("Component '" +:+ key +:+ "' not registered in context '" +:+ name self +:+ "'").

Section Resolution.
Context (U : Utils).
(** The resolution the factories call back into. *)
Context (resolve_rec : pytype → option string → state → outcome obj * state).

Definition build (f : callable) (s : state) : outcome obj * state :=
  let '(r, w) := call f s.2 in (r, (s.1, w)).

(** Run a custom factory. *)
Fixpoint run_factory (f : factory) (s : state) : outcome obj * state :=
  match f with
  | Plain c => build c s
  | Resolving interface name' next =>
      match resolve_rec interface name' s with
      | (Returned _, s') => run_factory next s'
      | (Raised e, s') => (Raised e, s')
      end
  end.

(** Resolve the annotated constructor parameters in order; an optional
    one that is not registered is left as [None]. *)
Fixpoint inject (deps : list (string * (pytype * bool))) (s : state)
  : option exn * state :=
  match deps with
  | [] => (None, s)
  | (_, (type, optional)) :: deps' =>
      if optional && negb (bool_decide (is_Some (_providers s.1 !! __name__ type)))
      then inject deps' s
      else
        match resolve_rec type None s with
        | (Returned _, s') => inject deps' s'
        | (Raised e, s') => (Some e, s')
        end
  end.

(** Construct an instance of a provider: through its custom factory, or
    by calling the type, with its dependencies resolved first when
    auto-wiring is enabled; a type that needs dependencies cannot be
    built while auto-wiring is disabled. *)
Definition construct (p : provider) (s : state) : outcome obj * state :=
  match p_factory p with
  | Some f => run_factory f s
  | None =>
      match get_constructor_dependencies U (p_type p) with
      | [] => build (__call__ (p_type p)) s
      | deps =>
          if _auto_wire s.1 then
            match inject deps s with
            | (None, s') => build (__call__ (p_type p)) s'
            | (Some e, s') => (Raised e, s')
            end
          else
            (Raised (ComponentResolutionError
                       ("Failed to resolve component " +:+ __name__ (p_type p))
                       (__name__ (p_type p))
                       "auto-wiring is disabled"), s)
      end
  end.
End Resolution.

(** Modelled from the spec: [resolve(type, name=None)] (spec 4.3). The
    provider is looked up and a missing one fails with
    [ComponentResolutionError]; [chain] is the stack of the keys whose
    construction is in flight in this resolution call, and re-entering
    one of them fails with [CircularDependencyError] carrying the full
    chain; otherwise the instance is obtained from the scope manager
    under the provider's scope. [depth] is the interpreter's recursion
    limit. *)
Fixpoint resolve_in (U : Utils) (depth : nat) (chain : list string)
    (type : pytype) (name' : option string) (s : state) : outcome obj * state :=
  match depth with
  | 0 => (Raised (PyException "maximum recursion depth exceeded"), s)
  | S depth' =>
      let key := str_or name' (__name__ type) in
      match _providers s.1 !! key with
      | None => (Raised (not_registered s.1 type key), s)
      | Some p =>
          if bool_decide (key ∈ chain)
          then (Raised (circular_dependency (chain ++ [key])), s)
          else
            ScopeManager.create_or_get_instance sm_of with_sm key (p_scope p)
              (construct U (resolve_in U depth' (chain ++ [key])) p) s
      end
  end.

(** A call from outside: nothing is in flight. *)
Definition resolve (U : Utils) (depth : nat) (self : t) (type : pytype)
    (name' : option string) (w : world) : outcome obj * state :=
  resolve_in U depth [] type name' (self, w).

End Context.

(* ===================================================================== *)
(** * Scenarios *)
(* ===================================================================== *)

Module Scenario.

(** Any number of resolutions, one after the other; their results are
    dropped, the container and the world are threaded through. *)
Fixpoint resolve_all (requests : list (pytype * option string))
    (self : Container.t) (w : world) : Container.t * world :=
  match requests with
  | [] => (self, w)
  | (interface, name) :: requests' =>
      let '(_, self', w') := Container.resolve self interface name w in
      resolve_all requests' self' w'
  end.

(** The transient invariant read for every callable whatsoever: two
    resolutions of a transient registration never return the same
    object. *)
Definition transient_always_distinct : Prop :=
  ∀ (U : Container.Utils) self0 interface implementation name tags factory
    self w o1 self1 w1 o2 self2 w2,
    Container.register U self0 interface implementation TRANSIENT name tags factory
    = (Returned (), self) →
    Container.resolve self interface name w = (Returned o1, self1, w1) →
    Container.resolve self1 interface name w1 = (Returned o2, self2, w2) →
    o1 ≠ o2.

(** The scoped fallback read for every callable whatsoever: without an
    open frame two calls never return the same object. *)
Definition scoped_fallback_always_fresh : Prop :=
  ∀ sm key f w o1 s1 o2 s2,
    ScopeManager.has_active_scope sm = false →
    ScopeManager.get_or_create key SCOPED f (sm, w) = (Returned o1, s1) →
    ScopeManager.get_or_create key SCOPED f s1 = (Returned o2, s2) →
    o1 ≠ o2.

(** The build order read for every set of modules that can be registered,
    however the registry came to hold it: when the imports have no cycle,
    [get_build_order()] returns a list in which the source of every import
    stands before the importing module. *)
Definition build_order_always_topological : Prop :=
  ∀ changes,
    let r := GlobalRegistry.registry_after changes in
    (∀ c, ¬ GlobalRegistry.is_cycle r c) →
    ∃ order,
      GlobalRegistry.get_build_order r = Returned order
      ∧ ∀ n m i,
          (n, m) ∈ GlobalRegistry._modules r →
          i ∈ ImportCollection.imports (GlobalRegistry.imports m) →
          ModuleContextImport.from_context i ≠ n →
          ModuleContextImport.from_context i ∈ GlobalRegistry.get_module_names r →
          ∃ a b,
            GlobalRegistry.index (ModuleContextImport.from_context i) order = Some a
            ∧ GlobalRegistry.index n order = Some b
            ∧ (a < b)%nat.

(** A test double: [MockComponent], a validation that passes, no
    constructor parameters. *)
Definition MockComponent : pytype :=
  {| __name__ := "MockComponent"; __call__ := constructor 0 |}.

Definition utils : Container.Utils :=
  {| Container.validate_component_registration := λ _ _ _, None;
     Container.get_constructor_dependencies := λ _, [] |}.

(** Test doubles of the context and registry tests. *)
Definition ServiceA : pytype := {| __name__ := "ServiceA"; __call__ := constructor 1 |}.
Definition ServiceB : pytype := {| __name__ := "ServiceB"; __call__ := constructor 2 |}.

Definition context_utils : Context.Utils :=
  {| Context.validate_component_registration := λ _ _ _, None;
     Context.get_constructor_dependencies := λ _, [] |}.

(** A module named [name] that imports [MockComponent] from each context
    of [sources]. *)
Definition module_importing (name : string) (sources : list string)
  : GlobalRegistry.ModuleMetadata :=
  {| GlobalRegistry.name := name;
     GlobalRegistry.module_class := {| __name__ := name; __call__ := constructor 0 |};
     GlobalRegistry.providers := ProviderCollection.empty;
     GlobalRegistry.imports :=
       foldl ImportCollection.add_import ImportCollection.empty
         ((λ source, ModuleContextImport.Make MockComponent source None None true)
            <$> sources);
     GlobalRegistry.exports := [];
     GlobalRegistry.description := None;
     GlobalRegistry.version := "1.0.0";
     GlobalRegistry.tags := [] |}.

End Scenario.

(* ===================================================================== *)
(** * Documentation macros ([docs/macros/__init__.py]) *)
(* ===================================================================== *)

Module Macros.

(** The line feed of ["\n".join(...)]. *)
Definition newline : string := String (Ascii.ascii_of_nat 10) EmptyString.

(** [f"{i + 1}. {step}"] for the pair [(i, step)] of [enumerate(steps)];
    [pretty] prints a number in decimal, as [str] does. *)
Definition numbered (i : nat) (step : string) : string :=
  pretty (S i) +:+ ". " +:+ step.

(** [banking_flow_steps], called with the steps as its arguments. *)
Definition banking_flow_steps (steps : list string) : string :=
  GlobalRegistry.join newline (imap numbered steps).

End Macros.

(* ===================================================================== *)
(** * Sessions: sequences of calls on one container *)
(* ===================================================================== *)

Module Session.

(** One call of a public method of the container. *)
Inductive operation :=
| DoRegister (interface : pytype) (implementation : option pytype)
    (scope : ComponentScope) (name : option string)
    (tags : option (list (string * string))) (factory : option callable)
| DoRegisterProvider (interface : pytype) (provider : ComponentProvider.t)
    (name : option string) (tags : option (list (string * string)))
| DoResolve (interface : pytype) (name : option string)
| DoUnregister (interface : pytype) (name : option string)
| DoClear
| DoShutdown.

(** The call is made and whatever it returns or raises is dropped: what
    remains is the container and the world. *)
Definition perform (U : Container.Utils) (op : operation)
    (s : Container.t * world) : Container.t * world :=
  match op with
  | DoRegister interface implementation scope name tags factory =>
      ((Container.register U s.1 interface implementation scope name tags factory).2,
       s.2)
  | DoRegisterProvider interface provider name tags =>
      ((Container.register_provider s.1 interface provider name tags).2, s.2)
  | DoResolve interface name =>
      let '(_, self, w) := Container.resolve s.1 interface name s.2 in (self, w)
  | DoUnregister interface name => ((Container.unregister s.1 interface name).2, s.2)
  | DoClear => (Container.clear s.1, s.2)
  | DoShutdown => (Container.shutdown s.1, s.2)
  end.

(** A whole session on a new container. *)
Definition run (U : Container.Utils) (name : string) (ops : list operation)
    (w : world) : Container.t * world :=
  foldl (λ s op, perform U op s) (Container.__init__ name, w) ops.

End Session.

(* ===================================================================== *)
(** * Properties of the container *)
(* ===================================================================== *)

Section ListFacts.

Lemma filter_none {A} (P : A → Prop) `{∀ x, Decision (P x)} (l : list A) :
  (∀ x, x ∈ l → ¬ P x) → filter P l = [].
Proof.
  induction l as [|x l IH]; [done|]. intros Hall.
  rewrite filter_cons_False by (apply Hall, elem_of_cons; by left).
  apply IH. intros y Hy. apply Hall, elem_of_cons. by right.
Qed.

End ListFacts.

Section ContainerFacts.
Import DI Container.
Implicit Types (self : Container.t) (interface : pytype) (w : world).

Lemma with_container_id self : with_container (_container self) self = self.
Proof. by destruct self. Qed.

Lemma is_registered_true self interface name :
  is_registered self interface name = true
  ↔ is_Some (_container self !! str_or name (__name__ interface)).
Proof. unfold is_registered. by rewrite bool_decide_eq_true. Qed.

Lemma is_registered_false self interface name :
  is_registered self interface name = false
  ↔ _container self !! str_or name (__name__ interface) = None.
Proof.
  unfold is_registered. rewrite bool_decide_eq_false.
  by rewrite eq_None_not_Some.
Qed.

(** A singleton provider that holds an object answers with it and nothing
    else happens. *)
Lemma resolve_stored_singleton self interface name f o w :
  _container self !! str_or name (__name__ interface) = Some (Singleton f (Some o)) →
  resolve self interface name w = (Returned o, self, w).
Proof.
  intros Hp. unfold resolve. rewrite Hp. simpl.
  by rewrite insert_id, with_container_id.
Qed.

(** The first successful call of a singleton provider stores what the
    callable returned and invokes the callable exactly when nothing was
    stored. *)
Lemma resolve_singleton_stores self interface name f st w o self1 w1 :
  _container self !! str_or name (__name__ interface) = Some (Singleton f st) →
  resolve self interface name w = (Returned o, self1, w1) →
  _container self1 !! str_or name (__name__ interface) = Some (Singleton f (Some o))
  ∧ (st = None → call f w = (Returned o, w1))
  ∧ (∀ o', st = Some o' → o' = o ∧ w1 = w).
Proof.
  intros Hp. unfold resolve. rewrite Hp.
  destruct st as [o'|]; simpl.
  - intros [= <- <- <-]. simpl. rewrite lookup_insert_eq.
    split; [done|]. split; [done|]. by intros ? [= <-].
  - destruct (call f w) as [[o''|e] w'] eqn:Hc; simpl.
    + intros [= <- <- <-]. simpl. rewrite lookup_insert_eq.
      split; [done|]. split; [done|]. done.
    + by destruct (is_ComponentResolutionError e).
Qed.

(** What a resolution does to the dictionary of providers: only the
    provider that was called may change. *)
Lemma resolve_container self interface name w :
  _container (resolve self interface name w).1.2
  = match _container self !! str_or name (__name__ interface) with
    | None => _container self
    | Some p => <[str_or name (__name__ interface) := (provide p w).1.2]>
                  (_container self)
    end.
Proof.
  unfold resolve.
  destruct (_container self !! str_or name (__name__ interface)) as [p|]; [|done].
  destruct (provide p w) as [[[o|e] p'] w']; [done|].
  by destruct (is_ComponentResolutionError e).
Qed.

(** Resolving any key leaves a stored singleton where it is. *)
Lemma resolve_keeps_stored_singleton self interface name w key f o :
  _container self !! key = Some (Singleton f (Some o)) →
  _container (resolve self interface name w).1.2 !! key
  = Some (Singleton f (Some o)).
Proof.
  intros Hk. rewrite resolve_container.
  destruct (_container self !! str_or name (__name__ interface)) as [p|] eqn:Hp;
    [|done].
  destruct (decide (str_or name (__name__ interface) = key)) as [Heq|Hne].
  - rewrite Heq in Hp. rewrite Hk in Hp. injection Hp as <-.
    rewrite Heq. by rewrite lookup_insert_eq.
  - by rewrite lookup_insert_ne.
Qed.

(** Registration with a scope the container supports installs the
    provider chosen for that scope under the provider name. *)
Lemma register_installs (U : Utils) self0 interface implementation scope name tags
    factory self :
  register U self0 interface implementation scope name tags factory
  = (Returned (), self) →
  ∃ p, provider_for scope factory (default interface implementation) = Some p
       ∧ _container self !! str_or name (__name__ interface) = Some p.
Proof.
  unfold register.
  destruct (validate_component_registration U _ _ _); [done|].
  destruct (provider_for _ _ _) as [p|]; [|done].
  intros [= <-]. exists p. split; [done|]. simpl.
  unfold set_provider. by rewrite lookup_insert_eq.
Qed.

Lemma shutdown_lookup self key :
  _container (shutdown self) !! key = shutdown_resource <$> _container self !! key.
Proof. unfold shutdown, shutdown_resources. simpl. by rewrite lookup_fmap. Qed.

(** A provider that is not a resource resolves after a shutdown exactly
    as before it. *)
Lemma resolve_after_shutdown self interface name p w :
  _container self !! str_or name (__name__ interface) = Some p →
  is_resource p = false →
  resolve (shutdown self) interface name w
  = let '(r, self', w') := resolve self interface name w in
    (r, shutdown self', w').
Proof.
  intros Hp Hres. unfold resolve.
  rewrite shutdown_lookup, Hp. cbn [fmap option_fmap option_map].
  assert (Hfix : shutdown_resource p = p) by by destruct p.
  rewrite Hfix.
  assert (Hp' : shutdown_resource (provide p w).1.2 = (provide p w).1.2).
  { destruct p as [g [?|]|g|g ?]; simpl in *; try done;
      unfold call; destruct (fn_body g w) as [[?|?] ?]; done. }
  destruct (provide p w) as [[r p'] w']. simpl in Hp'.
  assert (Heq : with_container
                  (<[str_or name (__name__ interface) := p']>
                     (_container (shutdown self))) (shutdown self)
                = shutdown (with_container
                              (<[str_or name (__name__ interface) := p']>
                                 (_container self)) self)).
  { unfold shutdown, with_container, shutdown_resources. simpl. f_equal.
    by rewrite fmap_insert, Hp'. }
  rewrite Heq. destruct r as [?|e]; [done|].
  by destruct (is_ComponentResolutionError e).
Qed.

Lemma invocations_call f w r w' :
  call f w = (r, w') → invocations f w' = S (invocations f w).
Proof.
  unfold call, invocations. destruct (fn_body f w) as [r' n].
  intros [= _ <-]. simpl. by rewrite filter_cons_True.
Qed.

Lemma call_creates f w o w' :
  creates_instances f → call f w = (Returned o, w') →
  (next_obj w ≤ o < next_obj w')%nat.
Proof.
  intros Hf. unfold call. destruct (fn_body f w) as [r n] eqn:Hb.
  intros [= -> <-]. simpl. by apply Hf.
Qed.

End ContainerFacts.

Section ContainerClaims.
Import DI Container Scenario.
Implicit Types (self : Container.t) (interface : pytype) (w : world).

(** C10. [unregister] returns [False] and leaves the container exactly as
    it was when no provider is registered under the provider name; when
    one is registered it returns [True] and removes the provider entry and
    its metadata, so that [is_registered] is then false and [get_metadata]
    raises [ComponentResolutionError]. *)
Theorem unregister_removes_provider_and_metadata self interface name :
  let provider_name := str_or name (__name__ interface) in
  if is_registered self interface name
  then ∃ self',
      unregister self interface name = (true, self')
      ∧ _container self' = delete provider_name (_container self)
      ∧ _component_metadata self' = delete provider_name (_component_metadata self)
      ∧ is_registered self' interface name = false
      ∧ ∃ message details,
          get_metadata self' interface name
          = Raised (ComponentResolutionError message (__name__ interface) details)
  else unregister self interface name = (false, self).
Proof.
  intros provider_name.
  destruct (is_registered self interface name) eqn:Hreg.
  - apply is_registered_true in Hreg as [p Hp].
    unfold unregister. fold provider_name in Hp |- *. rewrite Hp.
    eexists. split; [done|]. simpl. split; [done|]. split; [done|]. split.
    + apply is_registered_false. simpl. apply lookup_delete_eq.
    + unfold get_metadata. simpl. fold provider_name.
      rewrite lookup_delete_eq. by eexists _, _.
  - apply is_registered_false in Hreg.
    unfold unregister. fold provider_name in Hreg |- *. by rewrite Hreg.
Qed.

(** C9. Awaiting [resolve_async(interface, name)] returns exactly the
    instance [resolve(interface, name)] returns, raises exactly when it
    raises (with the same exception), and leaves the same container and
    the same world: the asynchronous entry point delegates to the
    synchronous path. *)
Theorem resolve_async_is_resolve self interface name w :
  await (resolve_async interface name) self w = resolve self interface name w.
Proof. reflexivity. Qed.

(** C6. After [shutdown()] every registration is still there: a singleton
    instance created before the shutdown is the instance a later [resolve]
    of that key returns, without invoking the factory; [is_registered]
    answers as before for every key; a provider other than a resource
    resolves exactly as it would have without the shutdown. [clear()], in
    contrast, leaves nothing registered and the same [resolve] raises. *)
Theorem shutdown_keeps_registrations self interface name f st w o self1 w1 :
  _container self !! str_or name (__name__ interface) = Some (Singleton f st) →
  resolve self interface name w = (Returned o, self1, w1) →
  is_registered (shutdown self1) interface name = true
  ∧ (∀ w2, resolve (shutdown self1) interface name w2
           = (Returned o, shutdown self1, w2))
  ∧ (∀ interface' name',
       is_registered (shutdown self1) interface' name'
       = is_registered self1 interface' name')
  ∧ (∀ interface' name' p w2,
       _container self1 !! str_or name' (__name__ interface') = Some p →
       is_resource p = false →
       resolve (shutdown self1) interface' name' w2
       = let '(r, self2, w3) := resolve self1 interface' name' w2 in
         (r, shutdown self2, w3))
  ∧ is_registered (clear self1) interface name = false
  ∧ (∀ w2, ∃ e, (resolve (clear self1) interface name w2).1.1 = Raised e).
Proof.
  intros Hp Hres.
  destruct (resolve_singleton_stores _ _ _ _ _ _ _ _ _ Hp Hres) as (Hst & _ & _).
  assert (Hsh : _container (shutdown self1) !! str_or name (__name__ interface)
                = Some (Singleton f (Some o))).
  { by rewrite shutdown_lookup, Hst. }
  split; [apply is_registered_true; by rewrite Hsh|].
  split; [intros w2; by eapply resolve_stored_singleton|].
  split.
  { intros interface' name'. unfold is_registered.
    rewrite shutdown_lookup. apply bool_decide_ext.
    by rewrite fmap_is_Some. }
  split.
  { intros interface' name' p w2 Hp' Hres'. by eapply resolve_after_shutdown. }
  split; [by apply is_registered_false|].
  intros w2. unfold resolve, clear. simpl. rewrite lookup_empty. by eexists.
Qed.

Lemma shutdown_keeps_registrations_witness :
  let self := (register utils (__init__ "default") MockComponent None
                 SINGLETON None None None).2 in
  let self1 := (resolve self MockComponent None (World 0 [])).1.2 in
  resolve (shutdown self1) MockComponent None (World 1 [Called 0])
  = (Returned 0, shutdown self1, World 1 [Called 0]).
Proof.
  intros self self1.
  pose proof (shutdown_keeps_registrations self MockComponent None
                (constructor 0) None (World 0 []) 0 self1 (World 1 [Called 0])
                eq_refl eq_refl) as (_ & Hsame & _).
  exact (Hsame (World 1 [Called 0])).
Defined.

End ContainerClaims.

Section LifetimeClaims.
Import DI Container Scenario.
Implicit Types (self : Container.t) (interface : pytype) (w : world).

Lemma resolve_all_keeps_stored_singleton requests self w key f o :
  _container self !! key = Some (Singleton f (Some o)) →
  _container (resolve_all requests self w).1 !! key = Some (Singleton f (Some o)).
Proof.
  revert self w. induction requests as [|[interface name] requests IH];
    intros self w Hk; [done|].
  simpl. pose proof (resolve_keeps_stored_singleton self interface name w _ _ _ Hk) as Hk'.
  destruct (resolve self interface name w) as [[r self'] w']. by apply IH.
Qed.

(** C4. A component registered with singleton scope is constructed once:
    the first resolution that returns invokes the factory (the custom
    factory, or else the implementation class) exactly once and returns
    its result; every later resolution of the key in that container,
    whatever else was resolved in between, returns the identical instance
    and leaves the world as it is, so the factory is not invoked again. *)
Theorem singleton_resolved_once (U : Utils) self0 interface implementation name
    tags factory self w o self1 w1 :
  register U self0 interface implementation SINGLETON name tags factory
  = (Returned (), self) →
  resolve self interface name w = (Returned o, self1, w1) →
  let f := default (__call__ (default interface implementation)) factory in
  call f w = (Returned o, w1)
  ∧ invocations f w1 = S (invocations f w)
  ∧ ∀ requests w2,
      let s := resolve_all requests self1 w2 in
      resolve s.1 interface name s.2 = (Returned o, s.1, s.2).
Proof.
  intros Hreg Hres f.
  destruct (register_installs _ _ _ _ _ _ _ _ _ Hreg) as (p & Hp & Hlook).
  simpl in Hp. injection Hp as <-. fold f in Hlook.
  destruct (resolve_singleton_stores _ _ _ _ _ _ _ _ _ Hlook Hres)
    as (Hst & Hcall & _).
  specialize (Hcall eq_refl). split; [done|].
  split; [by eapply invocations_call|].
  intros requests w2 s. eapply resolve_stored_singleton.
  by apply resolve_all_keeps_stored_singleton.
Qed.

Lemma singleton_resolved_once_witness :
  let self := (register utils (__init__ "default") MockComponent None
                 SINGLETON None None None).2 in
  let self1 := (resolve self MockComponent None (World 0 [])).1.2 in
  resolve self1 MockComponent None (World 1 [Called 0]) 
  = (Returned 0, self1, World 1 [Called 0]).
Proof.
  intros self self1.
  pose proof (singleton_resolved_once utils (__init__ "default") MockComponent
                None None None None self (World 0 []) 0 self1 (World 1 [Called 0])
                eq_refl eq_refl) as (_ & _ & Hagain).
  exact (Hagain [] (World 1 [Called 0])).
Defined.

(** C5, as the code has it. A component registered with transient scope
    is never cached: every resolution invokes the factory (the custom
    factory, or else the implementation class) once and returns what that
    invocation returned, and the container is left as it was. Two
    resolutions therefore return distinct instances whenever the factory
    creates its instance on each call; the container itself adds no
    copy. *)
Theorem transient_resolution_invokes_factory (U : Utils) self0 interface
    implementation name tags factory self w o1 self1 w1 w2 o2 self2 w3 :
  register U self0 interface implementation TRANSIENT name tags factory
  = (Returned (), self) →
  resolve self interface name w = (Returned o1, self1, w1) →
  resolve self1 interface name w2 = (Returned o2, self2, w3) →
  let f := default (__call__ (default interface implementation)) factory in
  call f w = (Returned o1, w1) ∧ call f w2 = (Returned o2, w3)
  ∧ invocations f w1 = S (invocations f w)
  ∧ invocations f w3 = S (invocations f w2)
  ∧ self1 = self ∧ self2 = self
  ∧ (creates_instances f → (next_obj w1 ≤ next_obj w2)%nat → o1 ≠ o2).
Proof.
  intros Hreg Hres1 Hres2 f.
  destruct (register_installs _ _ _ _ _ _ _ _ _ Hreg) as (p & Hp & Hlook).
  simpl in Hp. injection Hp as <-. fold f in Hlook.
  assert (Hone : ∀ w o self' w',
             resolve self interface name w = (Returned o, self', w') →
             call f w = (Returned o, w') ∧ self' = self).
  { intros wa o self' w'. unfold resolve. rewrite Hlook. simpl.
    destruct (call f wa) as [[o'|e] w''].
    - intros [= <- <- <-]. by rewrite insert_id, with_container_id.
    - by destruct (is_ComponentResolutionError e). }
  destruct (Hone _ _ _ _ Hres1) as [Hc1 ->].
  destruct (Hone _ _ _ _ Hres2) as [Hc2 ->].
  repeat split; try done; try by eapply invocations_call.
  intros Hf Hmono.
  pose proof (call_creates _ _ _ _ Hf Hc1). pose proof (call_creates _ _ _ _ Hf Hc2).
  lia.
Qed.

Lemma transient_resolution_invokes_factory_witness :
  let self := (register utils (__init__ "default") MockComponent None
                 TRANSIENT None None None).2 in
  resolve self MockComponent None (World 0 []) = (Returned 0, self, World 1 [Called 0])
  ∧ resolve self MockComponent None (World 1 [Called 0])
    = (Returned 1, self, World 2 [Called 0; Called 0])
  ∧ 0 ≠ 1.
Proof.
  intros self.
  pose proof (transient_resolution_invokes_factory utils (__init__ "default")
                MockComponent None None None None self
                (World 0 []) 0 self (World 1 [Called 0])
                (World 1 [Called 0]) 1 self (World 2 [Called 0; Called 0])
                eq_refl eq_refl eq_refl) as (_ & _ & _ & _ & _ & _ & Hne).
  split; [reflexivity|]. split; [reflexivity|].
  apply Hne; [|simpl; lia].
  intros w o n [= <- <-]. lia.
Defined.

(** C5, as stated, fails on a factory that hands out an object it closes
    over ([factory=lambda: instance]): registered as transient, it is
    invoked at each of the two resolutions and both return that same
    object. *)
Lemma transient_shared_object_counterexample : ¬ transient_always_distinct.
Proof.
  intros Hclaim.
  apply (Hclaim utils (__init__ "default") MockComponent None None None
           (Some (constant 1 0))
           (register utils (__init__ "default") MockComponent None TRANSIENT
              None None (Some (constant 1 0))).2
           (World 1 []) 0 _ _ 0 _ _ eq_refl eq_refl eq_refl eq_refl).
Qed.

End LifetimeClaims.

(* ===================================================================== *)
(** * Properties of the scope manager *)
(* ===================================================================== *)

Section ScopeManagerFacts.
Import ScopeManager Scenario.
Implicit Types (sm : ScopeManager.t) (w : world) (f g h : callable).

Lemma has_active_scope_false sm :
  has_active_scope sm = false ↔ _scoped_instances sm = [].
Proof. unfold has_active_scope. by destruct (_scoped_instances sm). Qed.

Lemma has_active_scope_true sm :
  has_active_scope sm = true ↔ is_Some (last (_scoped_instances sm)).
Proof.
  unfold has_active_scope.
  destruct (_scoped_instances sm) as [|fr l] using rev_ind.
  - split; [done|]. by intros [? ?].
  - rewrite last_snoc. split; [by eexists|]. by destruct l.
Qed.

Lemma last_alter {A} (g : A → A) (l : list A) :
  last (alter g (pred (length l)) l) = g <$> last l.
Proof.
  rewrite !last_lookup, length_alter.
  destruct (l !! pred (length l)) as [x|] eqn:Hx.
  - rewrite list_lookup_alter_eq. by rewrite Hx.
  - rewrite list_lookup_alter_eq. by rewrite Hx.
Qed.

Lemma run_returned f sm w o s' :
  run f (sm, w) = (Returned o, s') →
  call f w = (Returned o, s'.2) ∧ s'.1 = sm.
Proof.
  unfold run. simpl. destruct (call f w) as [r w']. by intros [= -> <-].
Qed.

(** Without an open frame a scoped request is a plain invocation of the
    factory. *)
Lemma scoped_without_frame key f sm w :
  has_active_scope sm = false →
  get_or_create key SCOPED f (sm, w) = run f (sm, w).
Proof.
  intros Hno%has_active_scope_false.
  unfold get_or_create, create_or_get_instance. simpl. by rewrite Hno.
Qed.

(** With an open frame, a scoped request that returns leaves the object
    cached under the key in the innermost frame, and nothing else of the
    stack changes. *)
Lemma scoped_with_frame key f sm w o s1 :
  has_active_scope sm = true →
  get_or_create key SCOPED f (sm, w) = (Returned o, s1) →
  ∃ fr, last (_scoped_instances s1.1) = Some fr ∧ cache fr !! key = Some o.
Proof.
  intros [fr Hfr]%has_active_scope_true.
  unfold get_or_create, create_or_get_instance. simpl. rewrite Hfr.
  destruct (cache fr !! key) as [o'|] eqn:Hc.
  - intros [= <- <-]. by exists fr.
  - unfold run. simpl. destruct (call f w) as [[o'|e] w']; [|done].
    intros [= <- <-]. simpl. rewrite last_alter, Hfr. simpl.
    eexists. split; [done|]. simpl. by rewrite lookup_insert_eq.
Qed.

Lemma scoped_cached key g sm w fr o :
  last (_scoped_instances sm) = Some fr → cache fr !! key = Some o →
  get_or_create key SCOPED g (sm, w) = (Returned o, (sm, w)).
Proof.
  intros Hfr Hc. unfold get_or_create, create_or_get_instance. simpl.
  by rewrite Hfr, Hc.
Qed.

(** Inside a frame that was just entered the request is a miss whatever
    the outer frames hold; what it stores goes on top of the outer
    stack. *)
Lemma scoped_in_new_frame key g sm w o s3 :
  get_or_create key SCOPED g (enter_scope sm, w) = (Returned o, s3) →
  call g w = (Returned o, s3.2)
  ∧ _singletons s3.1 = _singletons sm
  ∧ _disposable_instances s3.1 = _disposable_instances sm
  ∧ _scoped_instances s3.1
    = _scoped_instances sm ++ [store_in_frame key o empty_frame].
Proof.
  unfold get_or_create, create_or_get_instance. simpl.
  rewrite last_snoc. simpl. rewrite lookup_empty.
  unfold run. simpl. destruct (call g w) as [[o'|e] w']; [|done].
  intros [= <- <-]. simpl. split; [done|]. split; [done|]. split; [done|].
  rewrite length_app. simpl. rewrite Nat.add_1_r. simpl.
  by rewrite <- (Nat.add_0_r (length (_scoped_instances sm))), alter_app_r.
Qed.

Lemma exit_after_enter sm s3 fr :
  _singletons s3.1 = _singletons sm →
  _disposable_instances s3.1 = _disposable_instances sm →
  _scoped_instances s3.1 = _scoped_instances sm ++ [fr] →
  exit_scope s3 = (sm, dispose_all (created fr) s3.2).
Proof.
  intros H1 H2 H3. unfold exit_scope. rewrite H3, last_snoc.
  rewrite removelast_last, H1, H2. by destruct sm.
Qed.

Lemma invocations_dispose_all f os w :
  invocations f (dispose_all os w) = invocations f w.
Proof.
  unfold invocations, dispose_all. simpl. rewrite filter_app, length_app.
  rewrite filter_none; [done|].
  intros e He%elem_of_reverse%list_elem_of_fmap.
  by destruct He as (o & -> & _).
Qed.

(** A [with create_scope():] block around one scoped request: the request
    is a miss that invokes the factory, and on exit the manager is what it
    was on entry. *)
Lemma scoped_in_scope_block key g sm w o s4 :
  create_scope (get_or_create key SCOPED g) (sm, w) = (Returned o, s4) →
  ∃ w3, call g w = (Returned o, w3)
        ∧ s4 = (sm, dispose_all [o] w3).
Proof.
  unfold create_scope. cbn [fst snd].
  destruct (get_or_create key SCOPED g (enter_scope sm, w)) as [r s3] eqn:Hinner.
  intros [= -> <-].
  destruct (scoped_in_new_frame _ _ _ _ _ _ Hinner) as (Hcall & H1 & H2 & H3).
  exists s3.2. split; [done|].
  by rewrite (exit_after_enter _ _ _ H1 H2 H3).
Qed.

End ScopeManagerFacts.

Section ScopeManagerClaims.
Import ScopeManager Scenario.
Implicit Types (sm : ScopeManager.t) (w : world) (f g h : callable).

(** C3, as the model has it. For a key requested with scope SCOPED:
    with no open frame every call invokes the factory and returns its
    result, caching nothing (so the instance is distinct from every
    object that existed before the call whenever the factory creates its
    instance on each call); within one open frame a call that returned an
    instance makes every further call for the key return that identical
    instance; a call inside a nested [create_scope()] block misses the
    outer cache and invokes the factory (so it is distinct from the outer
    instance whenever the factory creates its instance on each call); and
    after the inner frame exits the manager is as before the block and a
    call returns the outer frame's cached instance again. *)
Theorem scoped_instances_follow_frames (key : string) f :
  (∀ sm w,
     has_active_scope sm = false →
     get_or_create key SCOPED f (sm, w) = run f (sm, w)
     ∧ ∀ o s',
         get_or_create key SCOPED f (sm, w) = (Returned o, s') →
         s'.1 = sm
         ∧ invocations f s'.2 = S (invocations f w)
         ∧ (creates_instances f →
            ∀ previous, (previous < next_obj w)%nat → o ≠ previous))
  ∧ (∀ sm w o s1,
       has_active_scope sm = true →
       get_or_create key SCOPED f (sm, w) = (Returned o, s1) →
       (∀ g w', get_or_create key SCOPED g (s1.1, w') = (Returned o, (s1.1, w')))
       ∧ ∀ g w2 o' s4,
           create_scope (get_or_create key SCOPED g) (s1.1, w2) = (Returned o', s4) →
           invocations g s4.2 = S (invocations g w2)
           ∧ (creates_instances g → (o < next_obj w2)%nat → o' ≠ o)
           ∧ s4.1 = s1.1
           ∧ ∀ h, get_or_create key SCOPED h s4 = (Returned o, s4)).
Proof.
  split.
  - intros sm w Hno. split; [by apply scoped_without_frame|].
    intros o s'. rewrite scoped_without_frame by done.
    intros [Hcall Hsm]%run_returned. split; [done|].
    split; [by eapply invocations_call|].
    intros Hf previous Hprev ->.
    pose proof (call_creates _ _ _ _ Hf Hcall). lia.
  - intros sm w o s1 Hopen Hfirst.
    destruct (scoped_with_frame _ _ _ _ _ _ Hopen Hfirst) as (fr & Hfr & Hc).
    split; [intros g w'; by eapply scoped_cached|].
    intros g w2 o' s4 Hblock.
    destruct (scoped_in_scope_block _ _ _ _ _ _ Hblock) as (w3 & Hcall & ->).
    split.
    { simpl. rewrite invocations_dispose_all. by eapply invocations_call. }
    split.
    { intros Hg Hexists ->. pose proof (call_creates _ _ _ _ Hg Hcall). lia. }
    split; [done|].
    intros h. by eapply scoped_cached.
Qed.

Lemma scoped_instances_follow_frames_witness :
  let f := constructor 0 in
  let s1 := (get_or_create "MockComponent" SCOPED f
               (enter_scope ScopeManager.new, World 0 [])).2 in
  let s4 := (create_scope (get_or_create "MockComponent" SCOPED f)
               (s1.1, World 1 [Called 0])).2 in
  get_or_create "MockComponent" SCOPED f (ScopeManager.new, World 0 [])
  = run f (ScopeManager.new, World 0 [])
  ∧ get_or_create "MockComponent" SCOPED f (s1.1, World 1 [Called 0])
    = (Returned 0, (s1.1, World 1 [Called 0]))
  ∧ get_or_create "MockComponent" SCOPED f s4 = (Returned 0, s4).
Proof.
  intros f s1 s4.
  destruct (scoped_instances_follow_frames "MockComponent" f) as [Hno Hopen].
  destruct (Hopen (enter_scope ScopeManager.new) (World 0 []) 0 s1 eq_refl eq_refl)
    as [Hsame Hnested].
  split; [exact (proj1 (Hno ScopeManager.new (World 0 []) eq_refl))|].
  split; [exact (Hsame f (World 1 [Called 0]))|].
  destruct (Hnested f (World 1 [Called 0]) 1 s4 eq_refl) as (_ & _ & _ & Hback).
  exact (Hback f).
Defined.

(** C3, as stated, fails on a factory that hands out an object it closes
    over: with no frame open it is invoked at both calls and both return
    that same object. *)
Lemma scoped_shared_object_counterexample : ¬ scoped_fallback_always_fresh.
Proof.
  intros Hclaim.
  apply (Hclaim ScopeManager.new "MockComponent" (constant 1 0) (World 1 [])
           0 _ 0 _ eq_refl eq_refl eq_refl eq_refl).
Qed.

(** The scope manager's singleton policy: a key in the table is returned
    without invoking the factory; otherwise the factory is invoked once
    and every later request returns its result. *)
Lemma scope_manager_singleton key f sm w o s1 :
  get_or_create key SINGLETON f (sm, w) = (Returned o, s1) →
  ∀ g w', get_or_create key SINGLETON g (s1.1, w') = (Returned o, (s1.1, w')).
Proof.
  unfold get_or_create, create_or_get_instance. simpl.
  destruct (_singletons sm !! key) as [o'|] eqn:Hs.
  - intros [= <- <-] g w'. simpl. by rewrite Hs.
  - unfold run. simpl. destruct (call f w) as [[o'|e] w1]; [|done].
    intros [= <- <-] g w'. simpl. by rewrite lookup_insert_eq.
Qed.

(** The scope manager's transient policy: the factory is invoked at every
    request and nothing is cached. *)
Lemma scope_manager_transient key f sm w :
  get_or_create key TRANSIENT f (sm, w) = run f (sm, w).
Proof. reflexivity. Qed.

End ScopeManagerClaims.

(* ===================================================================== *)
(** * Properties of the declarations *)
(* ===================================================================== *)

Section DeclarationClaims.
Import Scenario.

Lemma find_snoc_hit {A} (P : A → bool) (l : list A) (x : A) :
  P x = true → is_Some (find P (l ++ [x])).
Proof.
  intros Hx. induction l as [|y l IH]; simpl.
  - rewrite Hx. by eexists.
  - destruct (P y); [by eexists|done].
Qed.

(** C7. [evaluate_condition()] is true when there is no condition, the
    boolean itself when the condition is a boolean, the callable's result
    when the callable returns, and false, not an exception, when the
    callable raises. *)
Theorem evaluate_condition_fails_closed (config : ProviderConfig.t) :
  (ProviderConfig.conditional config = None →
   ProviderConfig.evaluate_condition config = true)
  ∧ (∀ b, ProviderConfig.conditional config = Some (ProviderConfig.CBool b) →
          ProviderConfig.evaluate_condition config = b)
  ∧ (∀ f b, ProviderConfig.conditional config = Some (ProviderConfig.CCallable f) →
            f () = Returned b →
            ProviderConfig.evaluate_condition config = b)
  ∧ (∀ f e, ProviderConfig.conditional config = Some (ProviderConfig.CCallable f) →
            f () = Raised e →
            ProviderConfig.evaluate_condition config = false).
Proof.
  unfold ProviderConfig.evaluate_condition.
  repeat split.
  - by intros ->.
  - by intros b ->.
  - by intros f b -> ->.
  - by intros f e -> ->.
Qed.

Lemma evaluate_condition_fails_closed_witness :
  ProviderConfig.evaluate_condition
    (ProviderConfig.Make MockComponent None SINGLETON None None []
       (Some (ProviderConfig.CCallable (λ _, Raised (ValueError "Condition failed")))))
  = false.
Proof.
  exact (proj2 (proj2 (proj2 (evaluate_condition_fails_closed
           (ProviderConfig.Make MockComponent None SINGLETON None None []
              (Some (ProviderConfig.CCallable
                       (λ _, Raised (ValueError "Condition failed"))))))))
           (λ _, Raised (ValueError "Condition failed"))
           (ValueError "Condition failed") eq_refl eq_refl).
Defined.

(** C8. Two imports with the same source context and provider name have
    the same import key, and adding the second to a collection that got
    the first changes nothing: from an empty collection the result has
    length one and holds the first. Likewise a provider whose name is
    already in a [ProviderCollection] is ignored. *)
Theorem duplicate_declarations_ignored
    (i1 i2 : ModuleContextImport.t) (p1 p2 : ProviderConfig.t) :
  ModuleContextImport.from_context i1 = ModuleContextImport.from_context i2 →
  ModuleContextImport.get_provider_name i1 = ModuleContextImport.get_provider_name i2 →
  ProviderConfig.get_provider_name p1 = ProviderConfig.get_provider_name p2 →
  ImportCollection.imports
    (ImportCollection.add_import
       (ImportCollection.add_import ImportCollection.empty i1) i2) = [i1]
  ∧ (∀ c, ImportCollection.add_import (ImportCollection.add_import c i1) i2
          = ImportCollection.add_import c i1)
  ∧ ProviderCollection.providers
      (ProviderCollection.add_provider
         (ProviderCollection.add_provider ProviderCollection.empty p1) p2) = [p1]
  ∧ (∀ c, ProviderCollection.add_provider (ProviderCollection.add_provider c p1) p2
          = ProviderCollection.add_provider c p1).
Proof.
  intros Hctx Hname Hp.
  assert (Hkey : ModuleContextImport.get_import_key i2
                 = ModuleContextImport.get_import_key i1).
  { unfold ModuleContextImport.get_import_key. by rewrite Hctx, Hname. }
  assert (Himp : ∀ c, ImportCollection.add_import (ImportCollection.add_import c i1) i2
                      = ImportCollection.add_import c i1).
  { intros c. unfold ImportCollection.add_import at 1. rewrite Hkey.
    unfold ImportCollection.add_import, ImportCollection.get_import_by_key.
    destruct (find _ (ImportCollection.imports c)) as [i|] eqn:Hfind.
    - by rewrite Hfind.
    - simpl.
      destruct (find_snoc_hit
                  (λ i, bool_decide (ModuleContextImport.get_import_key i
                                     = ModuleContextImport.get_import_key i1))
                  (ImportCollection.imports c) i1) as [i Hi].
      { by apply bool_decide_eq_true. }
      by rewrite Hi. }
  assert (Hprov : ∀ c, ProviderCollection.add_provider
                         (ProviderCollection.add_provider c p1) p2
                       = ProviderCollection.add_provider c p1).
  { intros c. unfold ProviderCollection.add_provider at 1. rewrite <- Hp.
    unfold ProviderCollection.add_provider, ProviderCollection.get_provider_by_name.
    destruct (find _ (ProviderCollection.providers c)) as [p|] eqn:Hfind.
    - by rewrite Hfind.
    - simpl.
      destruct (find_snoc_hit
                  (λ p, bool_decide (ProviderConfig.get_provider_name p
                                     = ProviderConfig.get_provider_name p1))
                  (ProviderCollection.providers c) p1) as [p Hp1].
      { by apply bool_decide_eq_true. }
      by rewrite Hp1. }
  split; [by rewrite Himp|]. split; [done|]. split; [by rewrite Hprov|done].
Qed.

Lemma duplicate_declarations_ignored_witness :
  let i := ModuleContextImport.Make MockComponent "source_context" None None true in
  let p1 := ProviderConfig.Make MockComponent None SINGLETON (Some "test") None [] None in
  let p2 := ProviderConfig.Make (PyType "TestComponent" (constructor 1)) None
              SINGLETON (Some "test") None [] None in
  length (ImportCollection.imports
            (ImportCollection.add_import
               (ImportCollection.add_import ImportCollection.empty i) i)) = 1
  ∧ ProviderCollection.providers
      (ProviderCollection.add_provider
         (ProviderCollection.add_provider ProviderCollection.empty p1) p2) = [p1].
Proof.
  intros i p1 p2.
  destruct (duplicate_declarations_ignored i i p1 p2 eq_refl eq_refl eq_refl)
    as (Hi & _ & Hp & _).
  split; [by rewrite Hi|exact Hp].
Defined.

End DeclarationClaims.

(* ===================================================================== *)
(** * Properties of the context *)
(* ===================================================================== *)

Section ContextClaims.
Import Context.
Implicit Types (self : Context.t) (w : world) (s : Context.state).

Lemma evict_uncached key scope sm : uncached key scope (evict key sm).
Proof.
  destruct scope; simpl; try done.
  - apply lookup_delete_eq.
  - intros fr. rewrite fmap_last.
    destruct (last (ScopeManager._scoped_instances sm)) as [fr'|]; [|done].
    intros [= <-]. simpl. apply lookup_delete_eq.
Qed.

Lemma evict_keeps_uncached key key' scope sm :
  uncached key scope sm → uncached key scope (evict key' sm).
Proof.
  destruct scope; simpl; try done.
  - intros H. rewrite lookup_delete_None. by right.
  - intros H fr. rewrite fmap_last.
    destruct (last (ScopeManager._scoped_instances sm)) as [fr'|]; [|done].
    intros [= <-]. simpl. rewrite lookup_delete_None. right. by apply H.
Qed.

(** A request that misses and whose factory raises passes the exception on
    and stores nothing. *)
Lemma create_or_get_instance_raises key scope factory s e s' :
  uncached key scope (sm_of s) →
  factory s = (Raised e, s') →
  ScopeManager.create_or_get_instance sm_of with_sm key scope factory s
  = (Raised e, s').
Proof.
  intros Hun Hf. unfold ScopeManager.create_or_get_instance.
  destruct scope; simpl in Hun; try done.
  - by rewrite Hun, Hf.
  - destruct (last _) as [fr|]; [|done]. by rewrite (Hun fr eq_refl), Hf.
Qed.

Lemma resolve_in_step (U : Utils) depth chain type name' s :
  resolve_in U (S depth) chain type name' s
  = let key := str_or name' (__name__ type) in
    match _providers s.1 !! key with
    | None => (Raised (not_registered s.1 type key), s)
    | Some p =>
        if bool_decide (key ∈ chain)
        then (Raised (circular_dependency (chain ++ [key])), s)
        else
          ScopeManager.create_or_get_instance sm_of with_sm key (p_scope p)
            (construct U (resolve_in U depth (chain ++ [key])) p) s
    end.
Proof. reflexivity. Qed.

(** Re-entering the resolution of a key that is in flight fails on the
    spot, with the chain that leads back to it. *)
Lemma resolve_in_reentry (U : Utils) depth chain type name' s :
  is_Some (_providers s.1 !! str_or name' (__name__ type)) →
  str_or name' (__name__ type) ∈ chain →
  resolve_in U (S depth) chain type name' s
  = (Raised (circular_dependency (chain ++ [str_or name' (__name__ type)])), s).
Proof.
  intros [p Hp] Hin. simpl. rewrite Hp. by rewrite bool_decide_eq_true_2.
Qed.

(** Two providers whose factories begin by resolving each other. *)
Lemma resolve_in_mutual (U : Utils) depth A nameA B nameB nextA nextB
    scopeA scopeB s :
  let keyA := str_or nameA (__name__ A) in
  let keyB := str_or nameB (__name__ B) in
  keyA ≠ keyB →
  _providers s.1 !! keyA
  = Some {| p_type := A; p_scope := scopeA;
            p_factory := Some (Resolving B nameB nextA) |} →
  _providers s.1 !! keyB
  = Some {| p_type := B; p_scope := scopeB;
            p_factory := Some (Resolving A nameA nextB) |} →
  uncached keyA scopeA (sm_of s) →
  uncached keyB scopeB (sm_of s) →
  resolve_in U (S (S (S depth))) [] A nameA s
  = (Raised (circular_dependency [keyA; keyB; keyA]), s).
Proof.
  intros keyA keyB Hne HA HB HunA HunB. subst keyA keyB.
  set (keyA := str_or nameA (__name__ A)) in *.
  set (keyB := str_or nameB (__name__ B)) in *.
  assert (Hthird : resolve_in U (S depth) [keyA; keyB] A nameA s
                   = (Raised (circular_dependency [keyA; keyB; keyA]), s)).
  { unfold keyA at 3. change [keyA; keyB; keyA] with ([keyA; keyB] ++ [keyA]).
    apply resolve_in_reentry; fold keyA; [by rewrite HA|set_solver]. }
  assert (Hsecond : resolve_in U (S (S depth)) [keyA] B nameB s
                    = (Raised (circular_dependency [keyA; keyB; keyA]), s)).
  { rewrite resolve_in_step. cbv zeta. fold keyB. rewrite HB.
    rewrite bool_decide_eq_false_2
      by (rewrite list_elem_of_singleton; congruence).
    apply create_or_get_instance_raises; [done|].
    unfold construct. cbn [p_factory run_factory].
    change ([keyA] ++ [keyB]) with [keyA; keyB]. by rewrite Hthird. }
  rewrite resolve_in_step. cbv zeta. fold keyA. rewrite HA.
  rewrite bool_decide_eq_false_2 by apply not_elem_of_nil.
  apply create_or_get_instance_raises; [done|].
  unfold construct. cbn [p_factory run_factory].
  change ([] ++ [keyA]) with [keyA]. by rewrite Hsecond.
Qed.

Lemma register_component_installs (U : Utils) self0 type name' scope factory
    allow_override self :
  register_component U self0 type name' scope factory allow_override
  = (Returned (), self) →
  _providers self
  = <[str_or name' (__name__ type) :=
        {| p_type := type; p_scope := scope; p_factory := factory |}]>
      (_providers self0)
  ∧ _scope_manager self = evict (str_or name' (__name__ type)) (_scope_manager self0).
Proof.
  unfold register_component.
  destruct (validate_component_registration U _ _ _); [done|].
  by intros [= <-].
Qed.

(** C1. Let A and B be registered in one context under distinct keys, each
    with a custom factory that resolves the other. Then [resolve(A)] raises
    [CircularDependencyError]; its dependency chain is [A; B; A] and so
    contains both; the recursion limit plays no part from depth three on.
    The error arises at the re-entry itself: resolving a registered key
    that is in the in-flight chain raises at once, and in the scenario no
    factory has built anything and nothing was cached, the context and the
    world being as before the call. *)
Theorem mutual_factories_raise_circular_dependency (U : Utils) self0 A nameA B nameB
    scopeA scopeB nextA nextB overrideA overrideB self1 self :
  let keyA := str_or nameA (__name__ A) in
  let keyB := str_or nameB (__name__ B) in
  keyA ≠ keyB →
  register_component U self0 A nameA scopeA (Some (Resolving B nameB nextA)) overrideA
  = (Returned (), self1) →
  register_component U self1 B nameB scopeB (Some (Resolving A nameA nextB)) overrideB
  = (Returned (), self) →
  (∀ depth w, (3 ≤ depth)%nat →
     ∃ message chain,
       resolve U depth self A nameA w
       = (Raised (CircularDependencyError message chain), (self, w))
       ∧ chain = [keyA; keyB; keyA] ∧ keyA ∈ chain ∧ keyB ∈ chain)
  ∧ (∀ depth chain type name' s,
       is_Some (_providers s.1 !! str_or name' (__name__ type)) →
       str_or name' (__name__ type) ∈ chain →
       resolve_in U (S depth) chain type name' s
       = (Raised (circular_dependency (chain ++ [str_or name' (__name__ type)])), s)).
Proof.
  intros keyA keyB Hne HregA HregB.
  split; [|intros; by apply resolve_in_reentry].
  intros depth w Hdepth.
  destruct (register_component_installs _ _ _ _ _ _ _ _ HregA) as [HpA HsA].
  destruct (register_component_installs _ _ _ _ _ _ _ _ HregB) as [HpB HsB].
  fold keyA in HpA, HsA. fold keyB in HpB, HsB.
  destruct depth as [|[|[|depth]]]; try lia.
  eexists _, _. split; [|split; [done|set_solver]].
  unfold resolve.
  apply (resolve_in_mutual U depth A nameA B nameB nextA nextB scopeA scopeB);
    simpl; try done.
  - rewrite HpB, lookup_insert_ne by done. by rewrite HpA, lookup_insert_eq.
  - by rewrite HpB, lookup_insert_eq.
  - unfold sm_of. simpl. rewrite HsB, HsA.
    apply evict_keeps_uncached, evict_uncached.
  - unfold sm_of. simpl. rewrite HsB. apply evict_uncached.
Qed.

End ContextClaims.

(* ===================================================================== *)
(** * Properties of the registry *)
(* ===================================================================== *)

Section RegistryInvariant.
Import GlobalRegistry.
Implicit Types (r : GlobalRegistry.t) (m : ModuleMetadata).

Lemma dict_set_keys {V} (k : string) (v : V) (d : list (string * V)) :
  k ∈ d.*1 → (dict_set k v d).*1 = d.*1.
Proof.
  induction d as [|[k' v'] d IH]; [by intros ?%elem_of_nil|].
  cbn [dict_set]. destruct (decide (k' = k)) as [->|Hne]; [done|].
  rewrite !fmap_cons. cbn [fst].
  intros [?|Hin]%elem_of_cons; [congruence|]. by rewrite IH.
Qed.

Lemma dict_set_keys_new {V} (k : string) (v : V) (d : list (string * V)) :
  k ∉ d.*1 → (dict_set k v d).*1 = d.*1 ++ [k].
Proof.
  induction d as [|[k' v'] d IH]; [done|].
  cbn [dict_set]. rewrite !fmap_cons. cbn [fst].
  intros [Hne Hnin]%not_elem_of_cons.
  destruct (decide (k' = k)); [congruence|].
  rewrite fmap_cons. cbn [fst]. by rewrite IH.
Qed.

Lemma dict_set_NoDup {V} (k : string) (v : V) (d : list (string * V)) :
  NoDup d.*1 → NoDup (dict_set k v d).*1.
Proof.
  intros Hnd. destruct (decide (k ∈ d.*1)) as [Hin|Hnin].
  - by rewrite dict_set_keys.
  - rewrite dict_set_keys_new by done. apply NoDup_app. split; [done|].
    split; [|apply NoDup_singleton].
    intros x Hx ->%list_elem_of_singleton. done.
Qed.

Lemma dict_set_elem {V} (k : string) (v : V) (d : list (string * V)) n x :
  NoDup d.*1 →
  (n, x) ∈ dict_set k v d → (n = k ∧ x = v) ∨ (n ≠ k ∧ (n, x) ∈ d).
Proof.
  induction d as [|[k' v'] d IH]; simpl.
  - intros _ [=]%list_elem_of_singleton. by left.
  - intros [Hk' Hnd]%NoDup_cons.
    destruct (decide (k' = k)) as [->|Hne].
    + intros [[= -> ->]|Hin]%elem_of_cons; [by left|].
      right. split; [|by apply elem_of_cons; right].
      intros ->. apply Hk'. apply list_elem_of_fmap. by exists (k, x).
    + intros [[= -> ->]|Hin]%elem_of_cons.
      * right. split; [done|]. apply elem_of_cons. by left.
      * destruct (IH Hnd Hin) as [?|[? ?]]; [by left|].
        right. split; [done|]. apply elem_of_cons. by right.
Qed.

Lemma new_well_formed : well_formed GlobalRegistry.new.
Proof. split; [apply NoDup_nil_2|]. by intros n m ?%elem_of_nil. Qed.

Lemma register_module_well_formed r m :
  well_formed r → well_formed (register_module r m).
Proof.
  intros [Hnd Hmods]. split.
  - unfold get_module_names, register_module. simpl. by apply dict_set_NoDup.
  - intros n m' Hin. unfold register_module in Hin |- *. simpl in *.
    destruct (dict_set_elem _ _ _ _ _ Hnd Hin) as [[-> ->]|[Hne Hin']].
    + split; [done|]. apply lookup_insert_eq.
    + destruct (Hmods _ _ Hin') as [Hname Hgraph].
      split; [done|]. by rewrite lookup_insert_ne.
Qed.

Lemma registry_of_well_formed ms : well_formed (registry_of ms).
Proof.
  unfold registry_of. induction ms as [|m ms IH] using rev_ind.
  - apply new_well_formed.
  - rewrite foldl_app. simpl. by apply register_module_well_formed.
Qed.

(** Registrations alone keep the stored edges in step with the imports. *)
Lemma registry_after_registrations (ms : list ModuleMetadata) :
  registry_after (DoRegisterModule <$> ms) = registry_of ms.
Proof.
  unfold registry_after, registry_of. generalize new.
  induction ms as [|m ms IH]; intros r0; [done|]. simpl. apply IH.
Qed.

End RegistryInvariant.

Section BuildOrder.
Import GlobalRegistry.
Context (r : GlobalRegistry.t) (Hwf : well_formed r).
Implicit Types (n d : string) (placed pending order : list string).

(** On a well-formed registry the stored graph is the import-derived
    one. *)
Lemma imports_from_depends_on a b :
  imports_from r a b ↔ a ∈ get_module_names r ∧ depends_on r a b.
Proof using Hwf.
  destruct Hwf as [Hnd Hmods].
  unfold imports_from, depends_on, get_module_dependencies, get_module_names.
  split.
  - intros (m & i & Hin & Hi & Hfrom & Hne).
    destruct (Hmods _ _ Hin) as [Hname Hgraph].
    split; [apply list_elem_of_fmap; by exists (a, m)|].
    rewrite Hgraph. simpl. rewrite elem_of_elements. unfold edges_of.
    rewrite elem_of_list_to_set, list_elem_of_filter, list_elem_of_fmap.
    split; [congruence|]. by exists i.
  - intros [([a' m] & -> & Hin)%list_elem_of_fmap Hdep]. simpl in *.
    destruct (Hmods _ _ Hin) as [Hname Hgraph].
    rewrite Hgraph in Hdep. simpl in Hdep. rewrite elem_of_elements in Hdep.
    unfold edges_of in Hdep.
    rewrite elem_of_list_to_set, list_elem_of_filter, list_elem_of_fmap in Hdep.
    destruct Hdep as (Hne & i & Hfrom & Hi).
    exists m, i. repeat split; try done. congruence.
Qed.

Lemma blocking_true placed d :
  blocking r placed d = true ↔ d ∈ get_module_names r ∧ d ∉ placed.
Proof.
  unfold blocking, is_module_registered.
  rewrite andb_true_iff, negb_true_iff, bool_decide_eq_true, bool_decide_eq_false.
  done.
Qed.

Lemma ready_true placed n :
  ready r placed n = true
  ↔ ∀ d, depends_on r n d → d ∈ get_module_names r → d ∈ placed.
Proof.
  unfold ready, depends_on. rewrite forallb_forall. split.
  - intros H d Hd Hreg. specialize (H d (proj1 (list_elem_of_In _ _) Hd)).
    apply negb_true_iff in H.
    destruct (decide (d ∈ placed)) as [|Hnot]; [done|].
    assert (blocking r placed d = true) by by apply blocking_true.
    congruence.
  - intros H d Hd%list_elem_of_In. apply negb_true_iff.
    destruct (blocking r placed d) eqn:Hb; [|done].
    apply blocking_true in Hb as [Hreg Hnot]. exfalso. apply Hnot. by apply H.
Qed.

(** A module that is not ready has a blocking dependency, and the walk
    finds one. *)
Lemma stuck_has_blocker placed n :
  ready r placed n ≠ true →
  ∃ d, find (blocking r placed) (get_module_dependencies r n) = Some d.
Proof.
  intros Hnot.
  destruct (find (blocking r placed) (get_module_dependencies r n)) as [d|] eqn:Hfind;
    [by exists d|].
  exfalso. apply Hnot. unfold ready. apply forallb_forall. intros d Hd.
  apply negb_true_iff. by eapply find_none in Hfind.
Qed.

Lemma pass_keeps_invariant pending placed :
  pass_invariant r pending placed →
  pass_invariant r (filter (λ n, ready r placed n ≠ true) pending)
                 (placed ++ filter (λ n, ready r placed n = true) pending).
Proof.
  intros [Hperm Hord]. split.
  - rewrite <- Hperm, <- (assoc_L (++)). f_equiv. apply filter_app_complement.
  - intros i n Hi d Hdep Hreg.
    destruct (decide (i < length placed)%nat) as [Hlt|Hge].
    + rewrite lookup_app_l in Hi by done.
      destruct (Hord i n Hi d Hdep Hreg) as (j & Hj & Hjd).
      exists j. split; [done|]. rewrite lookup_app_l by lia. done.
    + rewrite lookup_app_r in Hi by lia.
      apply list_elem_of_lookup_2, list_elem_of_filter in Hi as [Hready _].
      pose proof (proj1 (ready_true _ _) Hready d Hdep Hreg) as Hplaced.
      apply list_elem_of_lookup in Hplaced as [j Hj].
      exists j. pose proof (lookup_lt_Some _ _ _ Hj).
      split; [lia|]. by rewrite lookup_app_l.
Qed.

(** With as many passes as there are pending modules the sort ends with the
    invariant and with every module left over not ready. *)
Lemma sort_passes_spec passes pending placed :
  (length pending ≤ passes)%nat →
  pass_invariant r pending placed →
  let result := sort_passes r passes pending placed in
  pass_invariant r result.2 result.1
  ∧ ∀ n, n ∈ result.2 → ready r result.1 n ≠ true.
Proof.
  revert pending placed. induction passes as [|passes IH]; intros pending placed Hlen Hinv.
  - destruct pending; [|simpl in Hlen; lia]. simpl. split; [done|].
    by intros n ?%elem_of_nil.
  - simpl.
    destruct (filter (λ n, ready r placed n = true) pending) as [|n0 now] eqn:Hnow.
    + simpl. split; [done|]. intros n Hn Hready.
      by eapply (filter_nil_not_elem_of _ _ n Hnow).
    + rewrite <- Hnow. apply IH; [|by apply pass_keeps_invariant].
      assert (Hn0 : n0 ∈ filter (λ n, ready r placed n = true) pending).
      { rewrite Hnow. apply elem_of_cons. by left. }
      apply list_elem_of_filter in Hn0 as [Hready Hin].
      assert (length (filter (λ n, ready r placed n ≠ true) pending)
              < length pending)%nat; [|lia].
      eapply length_filter_lt; [done|]. by intros H.
Qed.

Lemma chain_app_r (R : string → string → Prop) l1 l2 :
  chain R (l1 ++ l2) → chain R l2.
Proof.
  induction l1 as [|a l1 IH]; [done|].
  destruct l1 as [|b l1]; simpl.
  - destruct l2; [done|]. by intros [_ ?].
  - intros [_ H]. by apply IH.
Qed.

Lemma chain_snoc (R : string → string → Prop) l a b :
  chain R (l ++ [a]) → R a b → chain R ((l ++ [a]) ++ [b]).
Proof.
  intros Hl Hab. induction l as [|x l IH]; [by simpl|].
  destruct l as [|y l]; simpl in *.
  - destruct Hl as [Hxa _]. done.
  - destruct Hl as [Hxy Hl]. split; [done|]. by apply IH.
Qed.

Lemma chain_impl (R R' : string → string → Prop) (P : string → Prop) l :
  (∀ a b, P a → R a b → R' a b) →
  (∀ x, x ∈ l → P x) → chain R l → chain R' l.
Proof.
  intros HR. induction l as [|a l IH]; [done|].
  intros HP Hl. destruct l as [|b l]; [done|].
  destruct Hl as [Hab Hl]. split.
  - apply HR; [|done]. apply HP. apply elem_of_cons. by left.
  - apply IH; [|done]. intros x Hx. apply HP. apply elem_of_cons. by right.
Qed.

Lemma from_first_split x l :
  x ∈ l → ∃ l1 l2, l = l1 ++ x :: l2 ∧ from_first x l = x :: l2.
Proof.
  induction l as [|y l IH]; [by intros ?%elem_of_nil|].
  simpl. destruct (decide (y = x)) as [->|Hne].
  - intros _. by exists [], l.
  - intros [?|Hin]%elem_of_cons; [congruence|].
    destruct (IH Hin) as (l1 & l2 & -> & Hff).
    by exists (y :: l1), l2.
Qed.

Lemma walk_step placed steps path cur :
  walk r placed steps path cur
  = if bool_decide (cur ∈ path) then from_first cur path ++ [cur]
    else match steps with
         | 0 => []
         | S steps' =>
             match find (blocking r placed) (get_module_dependencies r cur) with
             | None => []
             | Some d => walk r placed steps' (path ++ [cur]) d
             end
         end.
Proof. by destruct steps. Qed.

(** Among stuck modules the walk closes a cycle of the stored graph within
    as many steps as there are stuck modules. *)
Lemma walk_closes_cycle placed stuck :
  (∀ n, n ∈ get_module_names r → n ∉ placed → n ∈ stuck) →
  (∀ n, n ∈ stuck → ready r placed n ≠ true) →
  ∀ steps path cur,
    cur ∈ stuck → (∀ x, x ∈ path → x ∈ stuck) → NoDup path →
    chain (depends_on r) (path ++ [cur]) →
    length path + steps = length stuck →
    let c := walk r placed steps path cur in
    (2 ≤ length c)%nat ∧ chain (depends_on r) c ∧ head c = last c
    ∧ ∀ x, x ∈ c → x ∈ stuck.
Proof.
  intros Hall Hstuck steps.
  induction steps as [|steps IH]; intros path cur Hcur Hpath Hnd Hchain Hlen c;
    subst c; rewrite walk_step.
  - destruct (bool_decide (cur ∈ path)) eqn:Hin.
    + apply bool_decide_eq_true in Hin.
      destruct (from_first_split _ _ Hin) as (l1 & l2 & Hsplit & ->).
      split; [simpl; rewrite length_app; simpl; lia|].
      split; [apply (chain_app_r _ l1); by rewrite Hsplit, <- (assoc_L (++)) in Hchain|].
      split; [by rewrite last_snoc|].
      intros x [Hx|Hx]%elem_of_app; [|by apply list_elem_of_singleton in Hx as ->].
      apply Hpath. rewrite Hsplit. apply elem_of_app. by right.
    + apply bool_decide_eq_false in Hin. exfalso.
      assert (path ++ [cur] ⊆+ stuck) as Hsub%submseteq_length.
      { apply NoDup_submseteq.
        - apply NoDup_app. split; [done|]. split; [|apply NoDup_singleton].
          by intros x Hx ->%list_elem_of_singleton.
        - intros x [?|Hx%list_elem_of_singleton]%elem_of_app; subst; auto. }
      rewrite length_app in Hsub. simpl in Hsub. lia.
  - destruct (bool_decide (cur ∈ path)) eqn:Hin.
    + apply bool_decide_eq_true in Hin.
      destruct (from_first_split _ _ Hin) as (l1 & l2 & Hsplit & ->).
      split; [simpl; rewrite length_app; simpl; lia|].
      split; [apply (chain_app_r _ l1); by rewrite Hsplit, <- (assoc_L (++)) in Hchain|].
      split; [by rewrite last_snoc|].
      intros x [Hx|Hx]%elem_of_app; [|by apply list_elem_of_singleton in Hx as ->].
      apply Hpath. rewrite Hsplit. apply elem_of_app. by right.
    + apply bool_decide_eq_false in Hin.
      destruct (stuck_has_blocker placed cur (Hstuck _ Hcur)) as [d Hfind].
      rewrite Hfind. apply find_some in Hfind as [Hd Hblock].
      apply blocking_true in Hblock as [Hreg Hnot].
      apply IH.
      * by apply Hall.
      * intros x [?|Hx%list_elem_of_singleton]%elem_of_app; subst; auto.
      * apply NoDup_app. split; [done|]. split; [|apply NoDup_singleton].
        by intros x Hx ->%list_elem_of_singleton.
      * apply chain_snoc; [done|]. by apply list_elem_of_In.
      * rewrite length_app. simpl. lia.
Qed.

(** What [get_build_order] gives: an order of all the registered modules
    with dependencies first, or the error that names a cycle of the
    imports. *)
Lemma get_build_order_spec :
  match get_build_order r with
  | Returned order =>
      order ≡ₚ get_module_names r ∧ dependencies_first r order
  | Raised e => ∃ c, is_cycle r c ∧ e = circular_dependencies c
  end.
Proof using Hwf.
  unfold get_build_order.
  pose proof (sort_passes_spec (length (get_module_names r)) (get_module_names r) [])
    as Hspec.
  destruct Hspec as [[Hperm Hord] Hstuck]; [done| |].
  { split; [done|]. by intros i n ?. }
  destruct (sort_passes r _ _ _) as [placed stuck]. simpl in *.
  destruct stuck as [|n0 stuck].
  - rewrite app_nil_r in Hperm.
    rewrite filter_none; [by rewrite app_nil_r|].
    intros x Hx Hnot. apply Hnot. by rewrite Hperm.
  - assert (Hnd : NoDup (placed ++ n0 :: stuck)).
    { rewrite Hperm. apply Hwf. }
    apply NoDup_app in Hnd as (_ & Hdisj & Hnds).
    destruct (walk_closes_cycle placed (n0 :: stuck)) with
      (steps := length (n0 :: stuck)) (path := @nil string) (cur := n0)
      as (Hlen & Hchain & Hclosed & Hin); try done.
    + intros n Hn Hnot. rewrite <- Hperm in Hn.
      by apply elem_of_app in Hn as [?|?].
    + apply elem_of_cons. by left.
    + by intros x ?%elem_of_nil.
    + apply NoDup_nil_2.
    + eexists. split; [|done]. split; [done|]. split; [|done].
      apply (chain_impl (depends_on r) _ (λ x, x ∈ get_module_names r)); [| |done].
      * intros a b Ha Hab. by apply imports_from_depends_on.
      * intros x Hx. rewrite <- Hperm. apply elem_of_app. right. by apply Hin.
Qed.

End BuildOrder.

Section BuildOrderClaim.
Import GlobalRegistry Scenario.
Implicit Types (r : GlobalRegistry.t) (order : list string).

Lemma index_of_lookup (l : list string) i x :
  NoDup l → l !! i = Some x → index x l = Some i.
Proof.
  revert i. induction l as [|y l IH]; intros i Hnd Hi; [done|].
  apply NoDup_cons in Hnd as [Hy Hnd]. simpl.
  destruct i as [|i]; simpl in Hi.
  - injection Hi as ->. by rewrite decide_True.
  - rewrite decide_False.
    + by rewrite (IH i).
    + intros ->. apply Hy. by eapply list_elem_of_lookup_2.
Qed.

(** Along a walk of the imports the position in a dependencies-first order
    goes down. *)
Lemma chain_goes_down r order l a i z :
  well_formed r → dependencies_first r order →
  chain (imports_from r) (a :: l) → l ≠ [] →
  order !! i = Some a → last (a :: l) = Some z → z ∈ get_module_names r →
  ∃ j, (j < i)%nat ∧ order !! j = Some z.
Proof.
  intros Hwf Hord. revert a i. induction l as [|b l IH]; intros a i Hchain Hne Hi Hlast Hz;
    [done|].
  destruct Hchain as [Hab Hchain].
  apply (imports_from_depends_on r Hwf) in Hab as [Ha Hdep].
  destruct l as [|c l].
  - simpl in Hlast. injection Hlast as <-. by apply (Hord i a).
  - assert (Hb : b ∈ get_module_names r).
    { destruct Hchain as [Hbc _].
      by apply (imports_from_depends_on r Hwf) in Hbc as [? _]. }
    destruct (Hord i a Hi b Hdep Hb) as (j & Hj & Hjb).
    destruct (IH b j Hchain) as (k & Hk & Hkz); try done.
    exists k. split; [lia|done].
Qed.


End BuildOrderClaim.

Section Witnesses.
Import Scenario.

Lemma mutual_factories_raise_circular_dependency_witness :
  let context1 :=
    (Context.register_component context_utils (Context.__init__ "test_context")
       ServiceA None SINGLETON
       (Some (Context.Resolving ServiceB None (Context.Plain (__call__ ServiceA))))
       true).2 in
  let context :=
    (Context.register_component context_utils context1
       ServiceB None SINGLETON
       (Some (Context.Resolving ServiceA None (Context.Plain (__call__ ServiceB))))
       true).2 in
  ∃ message,
    (Context.resolve context_utils 1000 context ServiceA None (World 0 [])).1
    = Raised (CircularDependencyError message ["ServiceA"; "ServiceB"; "ServiceA"]).
Proof.
  intros context1 context.
  assert (Hne : str_or None (__name__ ServiceA) ≠ str_or None (__name__ ServiceB))
    by discriminate.
  pose proof (mutual_factories_raise_circular_dependency context_utils
                (Context.__init__ "test_context") ServiceA None ServiceB None
                SINGLETON SINGLETON
                (Context.Plain (__call__ ServiceA)) (Context.Plain (__call__ ServiceB))
                true true context1 context Hne eq_refl eq_refl) as [Hraise _].
  destruct (Hraise 1000 (World 0 [])) as (message & chain & Heq & Hchain & _);
    [lia|].
  exists message. rewrite Heq. simpl. by rewrite Hchain.
Defined.

(** The registry of [test_get_build_order_simple] has no cycle: its only
    edge goes from [module2] to [module1]. *)
Lemma simple_registry_acyclic :
  ∀ c, ¬ GlobalRegistry.is_cycle
           (GlobalRegistry.registry_of
              [module_importing "module1" []; module_importing "module2" ["module1"]])
           c.
Proof.
  assert (Hedge : ∀ a b,
             GlobalRegistry.imports_from
               (GlobalRegistry.registry_of
                  [module_importing "module1" []; module_importing "module2" ["module1"]])
               a b → a = "module2" ∧ b = "module1").
  { intros a b (m & i & Hin & Hi & Hfrom & _).
    cbv in Hin.
    apply elem_of_cons in Hin as [[= -> ->]|Hin].
    { cbv in Hi. by apply elem_of_nil in Hi. }
    apply list_elem_of_singleton in Hin. injection Hin as -> ->.
    cbv in Hi. apply list_elem_of_singleton in Hi as ->. by cbv in Hfrom. }
  intros c (Hlen & Hchain & Hclosed).
  destruct c as [|a [|b l]]; simpl in Hlen; try lia.
  destruct Hchain as [[-> ->]%Hedge Hchain].
  destruct l as [|c l]; [by cbv in Hclosed|].
  destruct Hchain as [[[=] _]%Hedge _].
Qed.



End Witnesses.

(* ===================================================================== *)
(** * The repository's tests, replayed on the model *)
(* ===================================================================== *)

Section Replay.
Import Scenario.

(** [test_provider_registration_duplicate_behavior]: the second
    registration of a name overrides the first. *)
Example replay_container_override :
  let first := constructor 7 in
  let second := constructor 8 in
  let c1 := (Container.register utils (Container.__init__ "default") MockComponent
               None SINGLETON None None (Some first)).2 in
  let c2 := (Container.register utils c1 MockComponent
               None SINGLETON None None (Some second)).2 in
  (Container.resolve c2 MockComponent None (World 0 [])).2
  = World 1 [Called 8].
Proof. reflexivity. Qed.

(** [test_container_disposal]: nothing resolves after [clear()]. *)
Example replay_container_clear :
  let c := (Container.register utils (Container.__init__ "default") MockComponent
              None SINGLETON None None None).2 in
  Container.is_registered (Container.clear c) MockComponent None = false.
Proof. reflexivity. Qed.

(** [test_nested_scopes] *)
Example replay_nested_scopes :
  let f := constructor 0 in
  let request := ScopeManager.get_or_create "MockComponent" SCOPED f in
  ScopeManager.create_scope
    (λ s, let '(instance1, s) := request s in
          let '(instance2, s) := ScopeManager.create_scope request s in
          let '(instance3, s) := request s in
          (Returned (instance1, instance2, instance3), s))
    (ScopeManager.new, World 0 [])
  = (Returned (Returned 0, Returned 1, Returned 0),
     (ScopeManager.new,
      World 2 [Disposed 0; Disposed 1; Called 0; Called 0])).
Proof. reflexivity. Qed.

(** [test_get_build_order_simple], with the modules registered in the
    other order. *)
Example replay_build_order_simple :
  GlobalRegistry.get_build_order
    (GlobalRegistry.registry_of
       [module_importing "module2" ["module1"]; module_importing "module1" []])
  = Returned ["module1"; "module2"].
Proof. reflexivity. Qed.

(** [test_get_build_order_circular_dependency] *)
Example replay_build_order_cycle :
  GlobalRegistry.get_build_order
    (GlobalRegistry.registry_of
       [module_importing "module1" ["module2"]; module_importing "module2" ["module1"]])
  = Raised (ValueError "Circular dependencies detected: module1 -> module2 -> module1").
Proof. reflexivity. Qed.

(** [test_get_module_dependencies]: an import from a context that is not
    registered stays in the graph and does not hold the order back. *)
Example replay_unregistered_source :
  GlobalRegistry.get_build_order
    (GlobalRegistry.registry_of [module_importing "module2" ["module1"; "module3"]])
  = Returned ["module2"].
Proof. reflexivity. Qed.

End Replay.

(* ===================================================================== *)
(** * Further properties of the container: registration *)
(* ===================================================================== *)

Section RegistrationFacts.
Import DI Container Scenario.
Implicit Types (self : Container.t) (interface : pytype) (w : world).

(** [resolve] on a registered name, in one equation. *)
Lemma resolve_registered self interface name w p :
  _container self !! str_or name (__name__ interface) = Some p →
  resolve self interface name w
  = (resolved interface (provide p w).1.1,
     with_container
       (<[str_or name (__name__ interface) := (provide p w).1.2]> (_container self))
       self,
     (provide p w).2).
Proof.
  intros Hp. unfold resolve. rewrite Hp.
  destruct (provide p w) as [[[o|e] p'] w']; [done|].
  unfold resolved, resolution_failure. simpl.
  by destruct (is_ComponentResolutionError e).
Qed.

(** A provider that holds nothing calls its callable. *)
Lemma provide_fresh scope factory impl p w :
  provider_for scope factory impl = Some p →
  (provide p w).1.1 = (call (default (__call__ impl) factory) w).1
  ∧ (provide p w).2 = (call (default (__call__ impl) factory) w).2.
Proof.
  destruct scope; simpl; intros [= <-]; simpl;
    by destruct (call (default (__call__ impl) factory) w) as [[?|?] ?].
Qed.

(** What a successful [register] leaves behind. *)
Lemma register_result (U : Utils) self interface implementation scope name tags
    factory self' :
  register U self interface implementation scope name tags factory
  = (Returned (), self') →
  ∃ p, provider_for scope factory (default interface implementation) = Some p
       ∧ self'
         = {| _name := _name self;
              _scope_manager := _scope_manager self;
              _container :=
                <[str_or name (__name__ interface) := p]> (_container self);
              _component_metadata :=
                <[str_or name (__name__ interface) :=
                    {| component_type := __name__ (default interface implementation);
                       component_name := str_or name (__name__ interface);
                       scope := scope;
                       tags := default [] tags;
                       dependencies :=
                         (get_constructor_dependencies U
                            (default interface implementation)).*1;
                       context_name := _name self;
                       provider_name := str_or name (__name__ interface) |}]>
                  (_component_metadata self);
              _registration_count := S (_registration_count self) |}.
Proof.
  unfold register.
  destruct (validate_component_registration U _ _ _); [done|].
  destruct (provider_for _ _ _) as [p|]; [|done].
  intros [= <-]. by exists p.
Qed.

(** X1. Registration and look-up round trip: after a [register] that
    returns, [is_registered] is true for the same interface and name and
    [get_metadata] returns the metadata of this registration: filed under
    the provider name, with the requested scope, the implementation's type
    name, the tags (none for [None]), the names of the constructor
    parameters and the name of this container. *)
Theorem register_then_lookup (U : Utils) self interface implementation scope name
    tags factory self' :
  register U self interface implementation scope name tags factory
  = (Returned (), self') →
  is_registered self' interface name = true
  ∧ ∃ m, get_metadata self' interface name = Returned m
         ∧ provider_name m = str_or name (__name__ interface)
         ∧ component_name m = str_or name (__name__ interface)
         ∧ Container.scope m = scope
         ∧ component_type m = __name__ (default interface implementation)
         ∧ Container.tags m = default [] tags
         ∧ dependencies m
           = (get_constructor_dependencies U (default interface implementation)).*1
         ∧ context_name m = _name self.
Proof.
  intros (p & _ & ->)%register_result. split.
  - apply is_registered_true. simpl. rewrite lookup_insert_eq. by eexists.
  - unfold get_metadata. simpl. rewrite lookup_insert_eq.
    eexists. split; [done|]. by repeat split.
Qed.

Lemma register_then_lookup_witness :
  let self' := (register utils (__init__ "default") MockComponent None TRANSIENT
                  (Some "custom_mock") None None).2 in
  is_registered self' MockComponent (Some "custom_mock") = true.
Proof.
  intros self'.
  exact (proj1 (register_then_lookup utils (__init__ "default") MockComponent None
                  TRANSIENT (Some "custom_mock") None None self' eq_refl)).
Defined.

(** X2. A [register] that raises raises a [ComponentRegistrationError] and
    has changed nothing in the container; it raises exactly when the
    validation rejects the registration or the scope is not one of the four
    the container supports. *)
Theorem register_fails_atomically (U : Utils) self interface implementation scope
    name tags factory e self' :
  register U self interface implementation scope name tags factory
  = (Raised e, self') →
  self' = self
  ∧ is_ComponentRegistrationError e = true
  ∧ (is_Some (validate_component_registration U interface
                (default interface implementation)
                (str_or name (__name__ interface)))
     ∨ scope = CONDITIONAL).
Proof.
  unfold register.
  destruct (validate_component_registration U _ _ _) as [e'|] eqn:Hv.
  - intros [= <- <-]. split; [done|]. split; [|left; by eexists].
    unfold registration_failure.
    by destruct (is_ComponentRegistrationError e') eqn:He.
  - destruct scope; simpl; try done.
    intros [= <- <-]. split; [done|]. split; [done|]. by right.
Qed.

Lemma register_fails_atomically_witness :
  ∃ e, register utils (__init__ "default") MockComponent None CONDITIONAL
         None None None = (Raised e, __init__ "default")
       ∧ is_ComponentRegistrationError e = true.
Proof.
  eexists. split; [reflexivity|].
  exact (proj1 (proj2 (register_fails_atomically utils (__init__ "default")
                         MockComponent None CONDITIONAL None None None _ _ eq_refl))).
Defined.

(** X3. The scope member CONDITIONAL can never be registered: whatever the
    other arguments and whatever the validation says, [register] raises a
    [ComponentRegistrationError] and the container is unchanged. *)
Theorem register_rejects_conditional_scope (U : Utils) self interface
    implementation name tags factory :
  ∃ e, register U self interface implementation CONDITIONAL name tags factory
       = (Raised e, self)
       ∧ is_ComponentRegistrationError e = true.
Proof.
  unfold register.
  destruct (validate_component_registration U _ _ _) as [e'|].
  - eexists. split; [done|]. unfold registration_failure.
    by destruct (is_ComponentRegistrationError e') eqn:He.
  - simpl. by eexists.
Qed.

(** X4. Registration touches one provider name only: for every other name
    [is_registered] and [get_metadata] answer as before, and the provider
    filed under it, with the instance it may hold, is the one that was
    there. *)
Theorem register_leaves_other_names (U : Utils) self interface implementation scope
    name tags factory self' interface' name' :
  register U self interface implementation scope name tags factory
  = (Returned (), self') →
  str_or name' (__name__ interface') ≠ str_or name (__name__ interface) →
  is_registered self' interface' name' = is_registered self interface' name'
  ∧ get_metadata self' interface' name' = get_metadata self interface' name'
  ∧ _container self' !! str_or name' (__name__ interface')
    = _container self !! str_or name' (__name__ interface').
Proof.
  intros (p & _ & ->)%register_result Hne.
  split; [|split].
  - unfold is_registered. simpl. by rewrite lookup_insert_ne.
  - unfold get_metadata. simpl. by rewrite lookup_insert_ne.
  - simpl. by rewrite lookup_insert_ne.
Qed.

Lemma register_leaves_other_names_witness :
  let self := (register utils (__init__ "default") MockComponent None SINGLETON
                 None None None).2 in
  let self1 := (resolve self MockComponent None (World 0 [])).1.2 in
  let self' := (register utils self1 ServiceA None SINGLETON None None None).2 in
  is_registered self' MockComponent None = true
  ∧ _container self' !! "MockComponent"
    = Some (Singleton (constructor 0) (Some 0)).
Proof.
  intros self self1 self'.
  assert (Hne : str_or None (__name__ MockComponent) ≠ str_or None (__name__ ServiceA))
    by discriminate.
  destruct (register_leaves_other_names utils self1 ServiceA None SINGLETON None
              None None self' MockComponent None eq_refl Hne)
    as (Hregistered & _ & Hprovider).
  split; [exact Hregistered|exact Hprovider].
Defined.

(** X5. The last registration wins: whatever was registered under the name
    before, and whatever instance it had cached, the first [resolve] after
    a [register] that returned invokes the newly registered factory (or the
    implementation class) and returns what it returns, or raises what it
    raises as a resolution error. *)
Theorem register_overrides (U : Utils) self interface implementation scope name
    tags factory self' w :
  register U self interface implementation scope name tags factory
  = (Returned (), self') →
  let f := default (__call__ (default interface implementation)) factory in
  (resolve self' interface name w).1.1 = resolved interface (call f w).1
  ∧ (resolve self' interface name w).2 = (call f w).2.
Proof.
  intros (p & Hp & ->)%register_result f.
  rewrite (resolve_registered _ _ _ _ p) by (simpl; by rewrite lookup_insert_eq).
  simpl. destruct (provide_fresh _ _ _ _ w Hp) as [-> ->]. done.
Qed.

Lemma register_overrides_witness :
  let first := constructor 7 in
  let second := constructor 8 in
  let c1 := (register utils (__init__ "default") MockComponent None SINGLETON
               None None (Some first)).2 in
  let c1' := (resolve c1 MockComponent None (World 0 [])).1.2 in
  let c2 := (register utils c1' MockComponent None SINGLETON
               None None (Some second)).2 in
  (resolve c2 MockComponent None (World 1 [Called 7])).2
  = World 2 [Called 8; Called 7].
Proof.
  intros first second c1 c1' c2.
  exact (proj2 (register_overrides utils c1' MockComponent None SINGLETON None None
                  (Some second) c2 (World 1 [Called 7]) eq_refl)).
Defined.

End RegistrationFacts.

(* ===================================================================== *)
(** * Further properties of the container: resolution *)
(* ===================================================================== *)

Section ResolutionFacts.
Import DI Container Scenario.
Implicit Types (self : Container.t) (interface : pytype) (w : world).

(** A provider call that raises leaves the provider as it was. *)
Lemma provide_raised p w e p' w' :
  provide p w = (Raised e, p', w') → p' = p.
Proof.
  destruct p as [f [o|]|f|f [o|]]; simpl; try done.
  - destruct (call f w) as [[?|?] ?]; [done|]. by intros [= _ <- _].
  - destruct (call f w) as [[?|?] ?]; by intros [= _ <- _].
  - destruct (call f w) as [[?|?] ?]; [done|]. by intros [= _ <- _].
Qed.

(** X6. Resolving a name that is not registered raises a
    [ComponentResolutionError] that carries the interface's type name; the
    container and the world are unchanged, so no factory was invoked. *)
Theorem resolve_unregistered self interface name w :
  is_registered self interface name = false →
  ∃ message details,
    resolve self interface name w
    = (Raised (ComponentResolutionError message (__name__ interface) details),
       self, w).
Proof.
  intros Hno%is_registered_false. unfold resolve. rewrite Hno. by eexists _, _.
Qed.

Lemma resolve_unregistered_witness :
  ∃ message details,
    resolve (__init__ "default") MockComponent None (World 0 [])
    = (Raised (ComponentResolutionError message "MockComponent" details),
       __init__ "default", World 0 []).
Proof.
  exact (resolve_unregistered (__init__ "default") MockComponent None (World 0 [])
           eq_refl).
Defined.

(** X7. [resolve] only ever raises resolution errors: whatever the factory
    raises, the caller sees a [ComponentResolutionError] (or a subclass). A
    resolution error raised inside the factory, such as one of a nested
    resolution, passes through as it is; any other exception is wrapped and
    its text kept as the details. *)
Theorem resolve_raises_resolution_errors self interface name w e self' w' :
  resolve self interface name w = (Raised e, self', w') →
  is_ComponentResolutionError e = true
  ∧ (is_registered self interface name = true →
     ∃ p e0, _container self !! str_or name (__name__ interface) = Some p
             ∧ (provide p w).1.1 = Raised e0
             ∧ (is_ComponentResolutionError e0 = true → e = e0)
             ∧ (is_ComponentResolutionError e0 = false →
                e = ComponentResolutionError
                      ("Failed to resolve component " +:+ __name__ interface)
                      (__name__ interface) (str e0))).
Proof.
  destruct (_container self !! str_or name (__name__ interface)) as [p|] eqn:Hp.
  - rewrite (resolve_registered _ _ _ _ p Hp).
    destruct (provide p w) as [[[o|e0] p'] w0] eqn:Hprov; [done|]. simpl.
    unfold resolution_failure. intros [= <- <- <-].
    destruct (is_ComponentResolutionError e0) eqn:He0.
    + split; [done|]. intros _. exists p, e0. by rewrite Hprov, He0.
    + split; [done|]. intros _. exists p, e0. by rewrite Hprov, He0.
  - unfold resolve. rewrite Hp. intros [= <- <- <-]. split; [done|].
    intros [q Hq]%is_registered_true. congruence.
Qed.

Lemma resolve_raises_resolution_errors_witness :
  let failing := raising 3 (ValueError "boom") in
  let self := (register utils (__init__ "default") MockComponent None SINGLETON
                 None None (Some failing)).2 in
  (resolve self MockComponent None (World 0 [])).1.1
  = Raised (ComponentResolutionError "Failed to resolve component MockComponent"
              "MockComponent" "boom").
Proof.
  intros failing self.
  destruct (resolve_raises_resolution_errors self MockComponent None (World 0 [])
              _ _ _ eq_refl) as [_ Hwrap].
  destruct (Hwrap eq_refl) as (p & e0 & Hp & He0 & _ & Hwrapped).
  reflexivity.
Defined.

(** X8. A resolution that raises has stored nothing for the resolved name:
    the provider filed under that name is the one that was there, it holds
    no instance, and the next [resolve] of the name calls its callable
    again. *)
Theorem failed_resolve_stores_nothing self interface name w e self' w' :
  resolve self interface name w = (Raised e, self', w') →
  _container self' !! str_or name (__name__ interface)
  = _container self !! str_or name (__name__ interface)
  ∧ ∀ p, _container self' !! str_or name (__name__ interface) = Some p →
         instance_of p = None
         ∧ ∀ w2, (resolve self' interface name w2).1.1
                 = resolved interface (call (provides_of p) w2).1
                 ∧ (resolve self' interface name w2).2 = (call (provides_of p) w2).2.
Proof.
  destruct (_container self !! str_or name (__name__ interface)) as [p|] eqn:Hp.
  - rewrite (resolve_registered _ _ _ _ p Hp).
    destruct (provide p w) as [[[o|e0] p'] w0] eqn:Hprov; [done|].
    simpl. intros [= _ <- _]. pose proof Hprov as ->%provide_raised.
    simpl. rewrite lookup_insert_eq. split; [done|].
    intros q [= <-].
    assert (Hnone : instance_of p = None).
    { destruct p as [f [o|]|f|f [o|]]; simpl in *; done. }
    split; [done|]. intros w2.
    rewrite (resolve_registered _ _ _ _ p) by (simpl; by rewrite lookup_insert_eq).
    simpl.
    destruct p as [f [o|]|f|f [o|]]; simpl in *; try done;
      by destruct (call f w2) as [[?|?] ?].
  - unfold resolve. rewrite Hp. intros [= _ <- _]. split; [done|].
    intros q Hq. congruence.
Qed.

Lemma failed_resolve_stores_nothing_witness :
  let failing := raising 3 (ValueError "boom") in
  let self := (register utils (__init__ "default") MockComponent None SINGLETON
                 None None (Some failing)).2 in
  let self' := (resolve self MockComponent None (World 0 [])).1.2 in
  _container self' !! "MockComponent" = Some (Singleton failing None)
  ∧ (resolve self' MockComponent None (World 0 [Called 3])).2
    = World 0 [Called 3; Called 3].
Proof.
  intros failing self self'.
  destruct (failed_resolve_stores_nothing self MockComponent None (World 0 [])
              _ self' _ eq_refl) as [Hsame Hagain].
  split; [exact Hsame|].
  destruct (Hagain (Singleton failing None) Hsame) as [_ Hretry].
  exact (proj2 (Hretry (World 0 [Called 3]))).
Defined.

(** X9. [resolve] never registers or unregisters anything: after it, for
    every interface and name, [is_registered] and [get_metadata] answer as
    before, and the number of registrations, the registration counter and
    the container's name are the same. *)
Theorem resolve_keeps_registrations self interface name w :
  let self' := (resolve self interface name w).1.2 in
  (∀ interface' name',
     is_registered self' interface' name' = is_registered self interface' name'
     ∧ get_metadata self' interface' name' = get_metadata self interface' name')
  ∧ get_registration_count self' = get_registration_count self
  ∧ _registration_count self' = _registration_count self
  ∧ _name self' = _name self.
Proof.
  intros self'. subst self'.
  destruct (_container self !! str_or name (__name__ interface)) as [p|] eqn:Hp.
  - rewrite (resolve_registered _ _ _ _ p Hp). simpl.
    split; [|split; [|done]].
    + intros interface' name'. split; [|done].
      unfold is_registered. simpl. apply bool_decide_ext.
      destruct (decide (str_or name (__name__ interface)
                        = str_or name' (__name__ interface'))) as [<-|Hne].
      * rewrite lookup_insert_eq, Hp. split; by eexists.
      * by rewrite lookup_insert_ne.
    + unfold get_registration_count. simpl.
      apply map_size_insert_Some. by eexists.
  - unfold resolve. rewrite Hp. simpl. by repeat split.
Qed.

(** X10. A component registered with SCOPED scope lives until the next
    shutdown: once a resolution has returned an instance, every further
    resolution returns that instance and leaves the world alone; after
    [shutdown()] the next resolution invokes the factory again. *)
Theorem scoped_component_until_shutdown (U : Utils) self0 interface implementation
    name tags factory self w o self1 w1 :
  register U self0 interface implementation SCOPED name tags factory
  = (Returned (), self) →
  resolve self interface name w = (Returned o, self1, w1) →
  let f := default (__call__ (default interface implementation)) factory in
  call f w = (Returned o, w1)
  ∧ (∀ w2, resolve self1 interface name w2 = (Returned o, self1, w2))
  ∧ ∀ w2, (resolve (shutdown self1) interface name w2).1.1
           = resolved interface (call f w2).1
           ∧ (resolve (shutdown self1) interface name w2).2 = (call f w2).2.
Proof.
  intros Hreg Hres f.
  destruct (register_installs _ _ _ _ _ _ _ _ _ Hreg) as (p & Hp & Hlook).
  simpl in Hp. injection Hp as <-. fold f in Hlook.
  rewrite (resolve_registered _ _ _ _ _ Hlook) in Hres. simpl in Hres.
  destruct (call f w) as [[o'|e] w'] eqn:Hcall; [|done].
  simpl in Hres. injection Hres as -> <- ->.
  split; [done|].
  assert (Hstored : _container
                      (with_container
                         (<[str_or name (__name__ interface) := Resource f (Some o)]>
                            (_container self)) self)
                    !! str_or name (__name__ interface)
                    = Some (Resource f (Some o))).
  { simpl. by rewrite lookup_insert_eq. }
  split.
  - intros w2. rewrite (resolve_registered _ _ _ _ _ Hstored). simpl.
    rewrite insert_insert_eq. done.
  - intros w2.
    rewrite (resolve_registered _ _ _ _ (Resource f None)).
    + simpl. by destruct (call f w2) as [[?|?] ?].
    + rewrite shutdown_lookup, Hstored. done.
Qed.

Lemma scoped_component_until_shutdown_witness :
  let self := (register utils (__init__ "default") MockComponent None SCOPED
                 None None None).2 in
  let self1 := (resolve self MockComponent None (World 0 [])).1.2 in
  resolve self1 MockComponent None (World 1 [Called 0])
  = (Returned 0, self1, World 1 [Called 0])
  ∧ (resolve (shutdown self1) MockComponent None (World 1 [Called 0])).2
    = World 2 [Called 0; Called 0].
Proof.
  intros self self1.
  destruct (scoped_component_until_shutdown utils (__init__ "default") MockComponent
              None None None None self (World 0 []) 0 self1 (World 1 [Called 0])
              eq_refl eq_refl) as (_ & Hsame & Hagain).
  split; [exact (Hsame _)|exact (proj2 (Hagain _))].
Defined.

(** X11. Singletons are kept per provider name, not per type: the same
    registration made under two different names is constructed once for
    each name, and the two instances are distinct whenever the factory
    creates its instance on each call. *)
Theorem singleton_per_provider_name (U : Utils) self0 interface implementation
    name1 name2 tags factory self1 self2 w o1 self3 w1 o2 self4 w2 :
  str_or name1 (__name__ interface) ≠ str_or name2 (__name__ interface) →
  register U self0 interface implementation SINGLETON name1 tags factory
  = (Returned (), self1) →
  register U self1 interface implementation SINGLETON name2 tags factory
  = (Returned (), self2) →
  resolve self2 interface name1 w = (Returned o1, self3, w1) →
  resolve self3 interface name2 w1 = (Returned o2, self4, w2) →
  let f := default (__call__ (default interface implementation)) factory in
  call f w = (Returned o1, w1) ∧ call f w1 = (Returned o2, w2)
  ∧ (creates_instances f → o1 ≠ o2).
Proof.
  intros Hne (p1 & Hp1 & ->)%register_result (p2 & Hp2 & ->)%register_result
    Hres1 Hres2 f.
  simpl in Hp1, Hp2. injection Hp1 as <-. injection Hp2 as <-. fold f in Hres1, Hres2.
  rewrite (resolve_registered _ _ _ _ (Singleton f None)) in Hres1
    by (simpl; rewrite lookup_insert_ne by done; by rewrite lookup_insert_eq).
  simpl in Hres1. destruct (call f w) as [[o|e] w'] eqn:Hc1; [|done].
  simpl in Hres1. injection Hres1 as -> <- ->.
  rewrite (resolve_registered _ _ _ _ (Singleton f None)) in Hres2
    by (simpl; rewrite lookup_insert_ne by done; by rewrite lookup_insert_eq).
  simpl in Hres2. destruct (call f w1) as [[o|e] w'] eqn:Hc2; [|done].
  simpl in Hres2. injection Hres2 as -> _ ->.
  split; [done|]. split; [done|].
  intros Hf. pose proof (call_creates _ _ _ _ Hf Hc1).
  pose proof (call_creates _ _ _ _ Hf Hc2). lia.
Qed.

Lemma singleton_per_provider_name_witness :
  let self1 := (register utils (__init__ "default") MockComponent None SINGLETON
                  (Some "first") None None).2 in
  let self2 := (register utils self1 MockComponent None SINGLETON
                  (Some "second") None None).2 in
  let self3 := (resolve self2 MockComponent (Some "first") (World 0 [])).1.2 in
  (resolve self3 MockComponent (Some "second") (World 1 [Called 0])).1.1 = Returned 1
  ∧ 0 ≠ 1.
Proof.
  intros self1 self2 self3.
  assert (Hne : str_or (Some "first") (__name__ MockComponent)
                ≠ str_or (Some "second") (__name__ MockComponent)) by discriminate.
  destruct (singleton_per_provider_name utils (__init__ "default") MockComponent None
              (Some "first") (Some "second") None None self1 self2
              (World 0 []) 0 self3 (World 1 [Called 0]) 1
              (resolve self3 MockComponent (Some "second") (World 1 [Called 0])).1.2
              (World 2 [Called 0; Called 0]) Hne eq_refl eq_refl eq_refl eq_refl)
    as (_ & _ & Hdistinct).
  split; [reflexivity|].
  apply Hdistinct. intros w o n [= <- <-]. lia.
Defined.

End ResolutionFacts.

(* ===================================================================== *)
(** * Further properties of the container: removal, clearing, shutdown *)
(* ===================================================================== *)

Section RemovalFacts.
Import DI Container Scenario.
Implicit Types (self : Container.t) (interface : pytype) (w : world).

(** X12. [get_registration_count] counts the provider names: registering
    a name that was not there adds one, registering over a name that was
    there changes nothing, and an [unregister] that returns [True] takes
    one away. The registration counter that numbers the registrations is
    another thing: [register] always advances it and [unregister] never
    takes it back. *)
Theorem registration_count_follows_names (U : Utils) self interface implementation
    scope name tags factory self' :
  register U self interface implementation scope name tags factory
  = (Returned (), self') →
  get_registration_count self'
  = (if is_registered self interface name
     then get_registration_count self
     else S (get_registration_count self))
  ∧ _registration_count self' = S (_registration_count self)
  ∧ get_registration_count (unregister self' interface name).2
    = pred (get_registration_count self')
  ∧ _registration_count (unregister self' interface name).2
    = _registration_count self'.
Proof.
  intros (p & _ & ->)%register_result.
  unfold get_registration_count, unregister. simpl.
  rewrite lookup_insert_eq. simpl.
  split; [|split; [done|split; [|done]]].
  - rewrite map_size_insert.
    destruct (is_registered self interface name) eqn:Hreg.
    + apply is_registered_true in Hreg as [q ->]. done.
    + apply is_registered_false in Hreg as ->. done.
  - apply map_size_delete_Some. rewrite lookup_insert_eq. by eexists.
Qed.

Lemma registration_count_follows_names_witness :
  let self := (register utils (__init__ "default") MockComponent None SINGLETON
                 None None None).2 in
  let self' := (register utils self MockComponent None TRANSIENT None None None).2 in
  get_registration_count self' = 1 ∧ _registration_count self' = 2.
Proof.
  intros self self'.
  destruct (registration_count_follows_names utils self MockComponent None TRANSIENT
              None None None self' eq_refl) as (Hcount & Hid & _).
  split; [exact Hcount|exact Hid].
Defined.

(** X13. In a container whose metadata is consistent (as it is throughout
    any session), registering a name that was not registered and
    unregistering it again gives back the providers and the metadata the
    container had; of the whole registration only the advanced registration
    counter remains. *)
Theorem register_unregister_round_trip (U : Utils) self interface implementation
    scope name tags factory self' :
  metadata_consistent self →
  is_registered self interface name = false →
  register U self interface implementation scope name tags factory
  = (Returned (), self') →
  ∃ self'',
    unregister self' interface name = (true, self'')
    ∧ _container self'' = _container self
    ∧ _component_metadata self'' = _component_metadata self
    ∧ _name self'' = _name self
    ∧ _scope_manager self'' = _scope_manager self
    ∧ _registration_count self'' = S (_registration_count self).
Proof.
  intros Hconsistent Hno%is_registered_false (p & _ & ->)%register_result.
  assert (Hmeta : _component_metadata self !! str_or name (__name__ interface) = None).
  { destruct (_component_metadata self !! str_or name (__name__ interface))
      as [m|] eqn:Hm; [|done].
    destruct (Hconsistent _ _ Hm) as [[q Hq] _]. congruence. }
  unfold unregister. simpl. rewrite lookup_insert_eq.
  eexists. split; [done|]. simpl.
  rewrite !delete_insert_eq, !delete_id by done. done.
Qed.

Lemma register_unregister_round_trip_witness :
  let self' := (register utils (__init__ "default") MockComponent None SINGLETON
                  None None None).2 in
  _container (unregister self' MockComponent None).2 = ∅.
Proof.
  intros self'.
  assert (Hconsistent : metadata_consistent (__init__ "default")).
  { intros key m Hm. discriminate Hm. }
  destruct (register_unregister_round_trip utils (__init__ "default") MockComponent
              None SINGLETON None None None self' Hconsistent eq_refl eq_refl)
    as (self'' & Hun & Hcontainer & _).
  rewrite Hun. exact Hcontainer.
Defined.

(** X14. [unregister] touches one provider name only and is idempotent:
    for every other name [is_registered] and [get_metadata] answer as
    before and the provider filed under it, with the instance it may hold,
    is the one that was there; a second [unregister] of the same name
    returns [False] and changes nothing. *)
Theorem unregister_is_local_and_idempotent self interface name :
  let self' := (unregister self interface name).2 in
  unregister self' interface name = (false, self')
  ∧ ∀ interface' name',
      str_or name' (__name__ interface') ≠ str_or name (__name__ interface) →
      is_registered self' interface' name' = is_registered self interface' name'
      ∧ get_metadata self' interface' name' = get_metadata self interface' name'
      ∧ _container self' !! str_or name' (__name__ interface')
        = _container self !! str_or name' (__name__ interface').
Proof.
  intros self'. subst self'.
  destruct (_container self !! str_or name (__name__ interface)) as [p|] eqn:Hp.
  - assert (Hun : unregister self interface name
                  = (true,
                     {| _name := _name self;
                        _scope_manager := _scope_manager self;
                        _container :=
                          delete (str_or name (__name__ interface)) (_container self);
                        _component_metadata :=
                          delete (str_or name (__name__ interface))
                                 (_component_metadata self);
                        _registration_count := _registration_count self |})).
    { unfold unregister. by rewrite Hp. }
    rewrite Hun. simpl. split.
    + unfold unregister. simpl. by rewrite lookup_delete_eq.
    + intros interface' name' Hne. split; [|split].
      * unfold is_registered. simpl. by rewrite lookup_delete_ne.
      * unfold get_metadata. simpl. by rewrite lookup_delete_ne.
      * by rewrite lookup_delete_ne.
  - assert (Hun : unregister self interface name = (false, self)).
    { unfold unregister. by rewrite Hp. }
    rewrite Hun. simpl. by split.
Qed.

(** X15. After [clear()] nothing is registered: for every interface and
    name [is_registered] is false, [get_metadata] and [resolve] raise a
    [ComponentResolutionError] and no factory is invoked; both counts are
    zero; the container keeps its name; and clearing again changes
    nothing. *)
Theorem clear_forgets_everything self interface name w :
  is_registered (clear self) interface name = false
  ∧ (∃ message details,
       get_metadata (clear self) interface name
       = Raised (ComponentResolutionError message (__name__ interface) details))
  ∧ (∃ message details,
       resolve (clear self) interface name w
       = (Raised (ComponentResolutionError message (__name__ interface) details),
          clear self, w))
  ∧ get_registration_count (clear self) = 0
  ∧ _registration_count (clear self) = 0
  ∧ _name (clear self) = _name self
  ∧ clear (clear self) = clear self.
Proof.
  split; [by apply is_registered_false|].
  split; [unfold get_metadata; simpl; rewrite lookup_empty; by eexists _, _|].
  split; [apply resolve_unregistered; by apply is_registered_false|].
  by repeat split.
Qed.

(** X16. [shutdown()] keeps the providers but clears the metadata: after it
    [is_registered] answers as before for every name and the number of
    registrations is the same, yet [get_metadata] raises a
    [ComponentResolutionError] for every name, registered or not, and the
    registration counter is back at zero. Shutting down twice is the same
    as once. *)
Theorem shutdown_drops_metadata_only self interface name :
  is_registered (shutdown self) interface name = is_registered self interface name
  ∧ get_registration_count (shutdown self) = get_registration_count self
  ∧ (∃ message details,
       get_metadata (shutdown self) interface name
       = Raised (ComponentResolutionError message (__name__ interface) details))
  ∧ _registration_count (shutdown self) = 0
  ∧ _name (shutdown self) = _name self
  ∧ shutdown (shutdown self) = shutdown self.
Proof.
  split.
  { unfold is_registered. rewrite shutdown_lookup. apply bool_decide_ext.
    by rewrite fmap_is_Some. }
  split.
  { unfold get_registration_count, shutdown, shutdown_resources. simpl.
    apply map_size_fmap. }
  split.
  { unfold get_metadata. simpl. rewrite lookup_empty. by eexists _, _. }
  split; [done|]. split; [done|].
  unfold shutdown, shutdown_resources. simpl. f_equal.
  rewrite <- map_fmap_compose. apply map_fmap_ext.
  by intros k [?|?|?] _.
Qed.

End RemovalFacts.

(* ===================================================================== *)
(** * Further properties of the container: provider objects, sessions *)
(* ===================================================================== *)

Section ProviderObjectFacts.
Import DI Container Scenario.
Implicit Types (self : Container.t) (interface : pytype) (w : world).

(** Resolving a name whose provider is a [providers.Factory]: its callable
    is called and the provider stays what it is. *)
Lemma resolve_factory self interface name f w :
  _container self !! str_or name (__name__ interface) = Some (Factory f) →
  (resolve self interface name w).1.1 = resolved interface (call f w).1
  ∧ (resolve self interface name w).2 = (call f w).2
  ∧ _container (resolve self interface name w).1.2
      !! str_or name (__name__ interface)
    = Some (Factory f).
Proof.
  intros Hp. rewrite (resolve_registered _ _ _ _ _ Hp). simpl.
  destruct (call f w) as [r w']. simpl. by rewrite lookup_insert_eq.
Qed.

(** X17. A component registered through [register_provider] is never
    cached: when the registration returns, the name is registered, its
    metadata carries the scope the provider object reports (SINGLETON when
    it has no [get_scope]) and no dependencies, and the provider filed
    under the name is a [providers.Factory] of the provider object's
    [provide]. As long as that provider is the one filed under the name,
    every [resolve] calls [provide] again and returns its result (or raises
    its exception as a resolution error), whatever that scope says, and
    the provider filed under the name stays the same. *)
Theorem register_provider_always_provides self interface provider name tags self' :
  register_provider self interface provider name tags = (Returned (), self') →
  ∃ bound_method m,
    ComponentProvider.provide provider = Returned bound_method
    ∧ is_registered self' interface name = true
    ∧ get_metadata self' interface name = Returned m
    ∧ Returned (Container.scope m)
      = default (Returned SINGLETON) (ComponentProvider.get_scope provider)
    ∧ component_type m = __name__ interface
    ∧ dependencies m = []
    ∧ _container self' !! str_or name (__name__ interface)
      = Some (Factory bound_method)
    ∧ ∀ self1 w,
        _container self1 !! str_or name (__name__ interface)
        = Some (Factory bound_method) →
        (resolve self1 interface name w).1.1
        = resolved interface (call bound_method w).1
        ∧ (resolve self1 interface name w).2 = (call bound_method w).2
        ∧ _container (resolve self1 interface name w).1.2
            !! str_or name (__name__ interface)
          = Some (Factory bound_method).
Proof.
  unfold register_provider.
  destruct (ComponentProvider.provide provider) as [bound|e]; [|done].
  destruct (default (Returned SINGLETON) (ComponentProvider.get_scope provider))
    as [scope|e] eqn:Hscope; [|done].
  intros [= <-]. eexists bound, _. split; [done|].
  split; [apply is_registered_true; simpl; unfold set_provider;
          rewrite lookup_insert_eq; by eexists|].
  split; [unfold get_metadata; simpl; by rewrite lookup_insert_eq|].
  split; [done|]. split; [done|]. split; [done|].
  split; [simpl; unfold set_provider; by rewrite lookup_insert_eq|].
  intros self1 w Hp. by apply resolve_factory.
Qed.

Lemma register_provider_always_provides_witness :
  let provider := {| ComponentProvider.provide := Returned (constructor 5);
                     ComponentProvider.get_scope := None |} in
  let self' := (register_provider (__init__ "default") MockComponent provider
                  None None).2 in
  let self1 := (resolve self' MockComponent None (World 0 [])).1.2 in
  (resolve self' MockComponent None (World 0 [])).1.1 = Returned 0
  ∧ (resolve self' MockComponent None (World 0 [])).2 = World 1 [Called 5]
  ∧ (resolve self1 MockComponent None (World 1 [Called 5])).1.1 = Returned 1
  ∧ (resolve self1 MockComponent None (World 1 [Called 5])).2
    = World 2 [Called 5; Called 5].
Proof.
  intros provider self' self1.
  destruct (register_provider_always_provides (__init__ "default") MockComponent
              provider None None self' eq_refl)
    as (bound & m & Hbound & _ & _ & _ & _ & _ & Hfiled & Hresolve).
  injection Hbound as <-.
  destruct (Hresolve self' (World 0 []) Hfiled) as (Hfirst & Hworld & Hstays).
  destruct (Hresolve self1 (World 1 [Called 5]) Hstays) as (Hsecond & Hworld' & _).
  split; [exact Hfirst|]. split; [exact Hworld|].
  split; [exact Hsecond|exact Hworld'].
Defined.

(** X18. A [register_provider] that raises always raises the
    [ComponentRegistrationError] whose message is "Failed to register
    provider for " followed by the interface's type name, whose component
    type and interface type are both that name, and whose details are the
    text of the exception that was caught. If it was reading
    [provider.provide] that raised, nothing has changed. If it was asking
    the provider for its scope that raised, the registration is left half
    done: the new [providers.Factory] of [provide] is installed under the
    name and resolves, while the metadata and the registration counter are
    as before. *)
Theorem register_provider_failure_modes self interface provider name tags e self' :
  register_provider self interface provider name tags = (Raised e, self') →
  ∃ e0,
    e = ComponentRegistrationError
          ("Failed to register provider for " +:+ __name__ interface)
          (Some (__name__ interface)) (Some (__name__ interface)) (str e0)
    ∧ is_ComponentRegistrationError e = true
    ∧ (ComponentProvider.provide provider = Raised e0 ∧ self' = self
       ∨ ∃ bound_method,
           ComponentProvider.provide provider = Returned bound_method
           ∧ ComponentProvider.get_scope provider = Some (Raised e0)
           ∧ is_registered self' interface name = true
           ∧ _container self'
             = <[str_or name (__name__ interface) := Factory bound_method]>
                 (_container self)
           ∧ (∀ w, (resolve self' interface name w).1.1
                   = resolved interface (call bound_method w).1
                   ∧ (resolve self' interface name w).2 = (call bound_method w).2)
           ∧ _component_metadata self' = _component_metadata self
           ∧ _registration_count self' = _registration_count self).
Proof.
  unfold register_provider.
  destruct (ComponentProvider.provide provider) as [bound|e0].
  - destruct (ComponentProvider.get_scope provider) as [[scope|e0]|] eqn:Hscope;
      simpl; [done| |done].
    intros [= <- <-]. exists e0. split; [done|]. split; [done|].
    right. exists bound. split; [done|]. split; [done|].
    split; [apply is_registered_true; simpl; unfold set_provider;
            rewrite lookup_insert_eq; by eexists|].
    split; [done|]. split; [|done].
    intros w.
    destruct (resolve_factory
                (with_container
                   (set_provider (str_or name (__name__ interface)) (Factory bound)
                      (_container self)) self)
                interface name bound w) as (Hr & Hw & _);
      [simpl; unfold set_provider; by rewrite lookup_insert_eq|].
    by split.
  - intros [= <- <-]. exists e0. split; [done|]. split; [done|].
    left. by split.
Qed.

Lemma register_provider_failure_modes_witness :
  let provider :=
    {| ComponentProvider.provide := Returned (constructor 5);
       ComponentProvider.get_scope := Some (Raised (ValueError "no scope")) |} in
  let result := register_provider (__init__ "default") MockComponent provider
                  None None in
  result.1
  = Raised (ComponentRegistrationError "Failed to register provider for MockComponent"
              (Some "MockComponent") (Some "MockComponent") "no scope")
  ∧ is_registered result.2 MockComponent None = true
  ∧ _component_metadata result.2 = ∅.
Proof.
  intros provider result.
  destruct (register_provider_failure_modes (__init__ "default") MockComponent
              provider None None _ result.2 eq_refl)
    as (e0 & He & _ & [[Hraised _]|(bound & _ & Hscope & Hreg & _ & _ & Hmeta & _)]).
  - discriminate Hraised.
  - injection Hscope as <-. split; [exact (f_equal Raised He)|].
    split; [exact Hreg|exact Hmeta].
Defined.

(** X19. [get_registered_types] lists the registered provider names: a name
    is in the list exactly when it is registered, no name occurs twice, and
    the length of the list is [get_registration_count]; the list is empty
    for a new container and after [clear()]. (The order of the list is not
    modelled.) *)
Theorem get_registered_types_lists_names self :
  (∀ interface name,
     str_or name (__name__ interface) ∈ get_registered_types self
     ↔ is_registered self interface name = true)
  ∧ NoDup (get_registered_types self)
  ∧ length (get_registered_types self) = get_registration_count self
  ∧ (∀ name, get_registered_types (__init__ name) = [])
  ∧ get_registered_types (clear self) = [].
Proof.
  unfold get_registered_types. split; [|split; [|split; [|split]]].
  - intros interface name.
    by rewrite elem_of_elements, elem_of_dom, is_registered_true.
  - apply NoDup_elements.
  - unfold get_registration_count. rewrite <- (size_dom (D := gset string)). done.
  - intros name. simpl. by rewrite dom_empty_L, elements_empty.
  - simpl. by rewrite dom_empty_L, elements_empty.
Qed.

End ProviderObjectFacts.

Section SessionFacts.
Import DI Container Scenario Session.
Implicit Types (self : Container.t) (interface : pytype) (w : world).

Lemma new_container_consistent name : metadata_consistent (__init__ name).
Proof. intros key m. simpl. by rewrite lookup_empty. Qed.

(** Every public method keeps the metadata consistent and the name. *)
Lemma perform_keeps_consistent (U : Utils) op s :
  metadata_consistent s.1 →
  metadata_consistent (perform U op s).1 ∧ _name (perform U op s).1 = _name s.1.
Proof.
  intros Hc. destruct s as [self w].
  destruct op as [interface implementation scope name tags factory
                 |interface provider name tags
                 |interface name|interface name| |]; simpl in *.
  - destruct (register U self interface implementation scope name tags factory)
      as [[[]|e] self'] eqn:Hreg; simpl.
    + apply register_result in Hreg as (p & _ & ->). simpl. split; [|done].
      intros key m. simpl.
      destruct (decide (str_or name (__name__ interface) = key)) as [<-|Hne].
      * rewrite !lookup_insert_eq. intros [= <-]. simpl.
        split; [by eexists|done].
      * rewrite !lookup_insert_ne by done. apply Hc.
    + apply register_fails_atomically in Hreg as (-> & _). by split.
  - unfold register_provider.
    destruct (ComponentProvider.provide provider) as [bound|e]; [|by split].
    destruct (default (Returned SINGLETON) (ComponentProvider.get_scope provider))
      as [scope|e]; simpl; (split; [|done]); intros key m; simpl;
      unfold set_provider.
    + destruct (decide (str_or name (__name__ interface) = key)) as [<-|Hne].
      * rewrite !lookup_insert_eq. intros [= <-]. simpl.
        split; [by eexists|done].
      * rewrite !lookup_insert_ne by done. apply Hc.
    + intros Hm. destruct (Hc key m Hm) as (Hreg & Hrest). split; [|done].
      destruct (decide (str_or name (__name__ interface) = key)) as [<-|Hne].
      * rewrite lookup_insert_eq. by eexists.
      * by rewrite lookup_insert_ne.
  - pose proof (resolve_keeps_registrations self interface name w) as Hkeep.
    pose proof (resolve_container self interface name w) as Hcont.
    assert (Hmeta : _component_metadata (resolve self interface name w).1.2
                    = _component_metadata self).
    { unfold resolve.
      destruct (_container self !! str_or name (__name__ interface)) as [p|];
        [|done].
      destruct (provide p w) as [[[o|e] p'] w']; [done|].
      by destruct (is_ComponentResolutionError e). }
    destruct (resolve self interface name w) as [[r self'] w'] eqn:Hres.
    simpl in *. destruct Hkeep as (_ & _ & _ & Hname). split; [|done].
    intros key m. rewrite Hmeta. intros Hm.
    destruct (Hc key m Hm) as (Hreg & Hrest). split; [|by rewrite Hname].
    rewrite Hcont.
    destruct (_container self !! str_or name (__name__ interface)) as [p|];
      [|done].
    destruct (decide (str_or name (__name__ interface) = key)) as [<-|Hne].
    + rewrite lookup_insert_eq. by eexists.
    + by rewrite lookup_insert_ne.
  - unfold unregister.
    destruct (_container self !! str_or name (__name__ interface)) as [p|];
      simpl; [|by split].
    split; [|done]. intros key m. simpl.
    destruct (decide (str_or name (__name__ interface) = key)) as [<-|Hne].
    + by rewrite lookup_delete_eq.
    + rewrite !lookup_delete_ne by done. apply Hc.
  - split; [|done]. intros key m. simpl. by rewrite lookup_empty.
  - split; [|done]. intros key m. simpl. by rewrite lookup_empty.
Qed.

(** X20. Through any session of calls on a container ([register],
    [register_provider], [resolve], [unregister], [clear], [shutdown], in
    any order, failing or not) the metadata stays consistent: whenever
    [get_metadata] returns metadata, the name is registered, and the
    metadata carries that provider name and the name the container was
    created with. *)
Theorem session_keeps_metadata_consistent (U : Utils) (container_name : string)
    (ops : list operation) w interface name m :
  let self := (run U container_name ops w).1 in
  get_metadata self interface name = Returned m →
  is_registered self interface name = true
  ∧ provider_name m = str_or name (__name__ interface)
  ∧ component_name m = str_or name (__name__ interface)
  ∧ context_name m = container_name.
Proof.
  intros self.
  assert (Hinv : metadata_consistent self ∧ _name self = container_name).
  { subst self. unfold run. induction ops as [|op ops IH] using rev_ind.
    - split; [apply new_container_consistent|done].
    - rewrite foldl_app. simpl. destruct IH as [IH Hname].
      destruct (perform_keeps_consistent U op _ IH) as [? Hname'].
      split; [done|]. by rewrite Hname'. }
  destruct Hinv as [Hinv Hname]. unfold get_metadata.
  destruct (_component_metadata self !! str_or name (__name__ interface))
    as [m'|] eqn:Hm; [|done].
  intros [= <-]. destruct (Hinv _ _ Hm) as (Hreg & ? & ? & ?).
  split; [by apply is_registered_true|]. split; [done|]. split; [done|].
  congruence.
Qed.

Lemma session_keeps_metadata_consistent_witness :
  let ops := [DoRegister MockComponent None SINGLETON None None None;
              DoResolve MockComponent None;
              DoRegister ServiceA None TRANSIENT (Some "a") None None;
              DoUnregister MockComponent None] in
  is_registered (run utils "default" ops (World 0 [])).1 ServiceA (Some "a") = true.
Proof.
  intros ops.
  destruct (session_keeps_metadata_consistent utils "default" ops (World 0 [])
              ServiceA (Some "a") _ eq_refl) as [Hreg _].
  exact Hreg.
Defined.

End SessionFacts.

(* ===================================================================== *)
(** * Further properties: scopes and names, the documentation macros *)
(* ===================================================================== *)

Section NamingFacts.
Import DI Container Scenario.
Implicit Types (self : Container.t) (interface : pytype) (w : world).

(** X21. A component registered with FACTORY scope is never cached: the
    provider filed under its name is a [providers.Factory] of the factory
    (the custom factory, or else the implementation class), and as long as
    that provider is the one filed under the name, every resolution invokes
    the factory once, returns what it returns or raises what it raises as
    a resolution error, and leaves that provider as it is. *)
Theorem factory_scope_never_caches (U : Utils) self0 interface implementation name
    tags factory self :
  register U self0 interface implementation FACTORY name tags factory
  = (Returned (), self) →
  let f := default (__call__ (default interface implementation)) factory in
  _container self !! str_or name (__name__ interface) = Some (Factory f)
  ∧ ∀ self1 w,
      _container self1 !! str_or name (__name__ interface) = Some (Factory f) →
      (resolve self1 interface name w).1.1 = resolved interface (call f w).1
      ∧ (resolve self1 interface name w).2 = (call f w).2
      ∧ invocations f (resolve self1 interface name w).2 = S (invocations f w)
      ∧ _container (resolve self1 interface name w).1.2
          !! str_or name (__name__ interface)
        = Some (Factory f).
Proof.
  intros Hreg f.
  destruct (register_installs _ _ _ _ _ _ _ _ _ Hreg) as (p & Hp & Hlook).
  simpl in Hp. injection Hp as <-. fold f in Hlook.
  split; [exact Hlook|].
  intros self1 w Hfiled.
  destruct (resolve_factory self1 interface name f w Hfiled) as (Hr & Hw & Hstays).
  split; [exact Hr|]. split; [exact Hw|]. split; [|exact Hstays].
  rewrite Hw. destruct (call f w) as [r w'] eqn:Hcall. simpl.
  by eapply invocations_call.
Qed.

Lemma factory_scope_never_caches_witness :
  let self := (register utils (__init__ "default") MockComponent None FACTORY
                 None None None).2 in
  (resolve self MockComponent None (World 1 [Called 0])).1.1 = Returned 1
  ∧ (resolve self MockComponent None (World 1 [Called 0])).2
    = World 2 [Called 0; Called 0].
Proof.
  intros self.
  destruct (factory_scope_never_caches utils (__init__ "default") MockComponent
              None None None None self eq_refl) as [Hfiled Hresolve].
  destruct (Hresolve self (World 1 [Called 0]) Hfiled) as (Hr & Hw & _).
  split; [exact Hr|exact Hw].
Defined.

(** X22. Registrations are keyed by the type's name, not by the type, and
    an empty name counts as no name: two interfaces with the same
    [__name__] are one and the same to [is_registered], [get_metadata],
    [resolve] and [unregister], so a class that shares its name with a
    registered class resolves to that registration; and passing [""] as the
    name is as passing [None]. *)
Theorem registrations_keyed_by_type_name self interface1 interface2 name w :
  __name__ interface1 = __name__ interface2 →
  is_registered self interface1 name = is_registered self interface2 name
  ∧ get_metadata self interface1 name = get_metadata self interface2 name
  ∧ resolve self interface1 name w = resolve self interface2 name w
  ∧ unregister self interface1 name = unregister self interface2 name
  ∧ is_registered self interface1 (Some "") = is_registered self interface1 None
  ∧ get_metadata self interface1 (Some "") = get_metadata self interface1 None
  ∧ resolve self interface1 (Some "") w = resolve self interface1 None w
  ∧ unregister self interface1 (Some "") = unregister self interface1 None.
Proof.
  intros Hname.
  unfold is_registered, get_metadata, resolve, unregister. rewrite Hname.
  by repeat split.
Qed.

Lemma registrations_keyed_by_type_name_witness :
  let other := {| __name__ := "MockComponent"; __call__ := constructor 9 |} in
  let self := (register utils (__init__ "default") MockComponent None SINGLETON
                 None None None).2 in
  resolve self other None (World 0 []) = resolve self MockComponent None (World 0 []).
Proof.
  intros other self.
  destruct (registrations_keyed_by_type_name self other MockComponent None
              (World 0 []) eq_refl) as (_ & _ & Hresolve & _).
  exact Hresolve.
Defined.

End NamingFacts.

Section MacroFacts.
Import Macros.

Lemma string_app_assoc (a b c : string) : (a +:+ b) +:+ c = a +:+ b +:+ c.
Proof.
  induction a as [|x a IH]; [done|].
  change ((String x a +:+ b) +:+ c) with (String x ((a +:+ b) +:+ c)).
  change (String x a +:+ b +:+ c) with (String x (a +:+ b +:+ c)).
  by rewrite IH.
Qed.

Lemma join_snoc (sep : string) (l : list string) (x : string) :
  l ≠ [] →
  GlobalRegistry.join sep (l ++ [x]) = GlobalRegistry.join sep l +:+ sep +:+ x.
Proof.
  induction l as [|y l IH]; [done|]. intros _.
  destruct l as [|z l]; [done|].
  change (GlobalRegistry.join sep ((y :: z :: l) ++ [x]))
    with (y +:+ sep +:+ GlobalRegistry.join sep ((z :: l) ++ [x])).
  rewrite IH by done.
  change (GlobalRegistry.join sep (y :: z :: l))
    with (y +:+ sep +:+ GlobalRegistry.join sep (z :: l)).
  by rewrite !string_app_assoc.
Qed.

(** X23. [banking_flow_steps] numbers the steps from 1, one per line and
    with no line feed at the end: with no steps it is the empty string, and
    appending a step appends a line feed (unless it is the first step) and
    the step under the next number. *)
Theorem banking_flow_steps_appends (steps : list string) (step : string) :
  banking_flow_steps [] = ""
  ∧ banking_flow_steps [step] = "1. " +:+ step
  ∧ (steps ≠ [] →
     banking_flow_steps (steps ++ [step])
     = banking_flow_steps steps +:+ newline
         +:+ pretty (S (length steps)) +:+ ". " +:+ step).
Proof.
  split; [done|]. split; [done|]. intros Hne.
  unfold banking_flow_steps. rewrite imap_app. simpl.
  rewrite join_snoc.
  - unfold numbered. by rewrite Nat.add_0_r.
  - destruct steps; [done|]. by rewrite imap_cons.
Qed.

Lemma banking_flow_steps_appends_witness :
  banking_flow_steps (["Open account"] ++ ["Deposit"])
  = banking_flow_steps ["Open account"] +:+ newline +:+ "2. Deposit".
Proof.
  assert (Hne : ["Open account"] ≠ @nil string) by discriminate.
  exact (proj2 (proj2 (banking_flow_steps_appends ["Open account"] "Deposit")) Hne).
Defined.

End MacroFacts.
